(** * SubredditMiner: the service wrappers and the persisted records

    A shallow embedding of [reddit_agent/services.py] and
    [reddit_agent/models.py], and the properties of the discovery and
    tracking pipeline that can be read off them.

    - [Py]: the fragment of Python the services rely on (exceptions caught by
      [try]/[except Exception], the logger, [str.strip], [str.split],
      [str.join], [min]/[max] over [int] and [float], [dict.get]).
    - [Services]: [LLMService.extract_topics],
      [LLMService.score_community_relevance] and
      [RedditScraperService.parse_reddit_post].
    - [Orm]: tables whose rows obey the uniqueness constraints a model
      declares ([primary_key], [unique=True], [OneToOneField],
      [Meta.unique_together]).
    - [Models]: the records [Query], [RedditCommunity], [RedditPost],
      [TrackableItem] and [Snapshot] with their declared defaults and
      constraints. *)

From Stdlib Require Import ZArith Ascii String List Bool Lia.
From Stdlib Require Import Floats.SpecFloat.
From stdpp Require Import base decidable list strings gmap.

Local Open Scope string_scope.
Local Open Scope Z_scope.
Local Open Scope list_scope.

(* ===================================================================== *)
(** * The Python fragment *)
(* ===================================================================== *)

Module Py.

(** A [str] is a [string] whose characters are code points below 256. *)

(** An exception instance: its class name and what [str(e)] gives. *)
Record exn := Exn { exn_class : string; exn_str : string }.

(** What a call does. It returns a value; or it raises an instance of
    [Exception], which [except Exception] catches; or it raises an instance
    of a class of [BaseException] that is outside [Exception]
    ([KeyboardInterrupt], [SystemExit], [GeneratorExit]), which
    [except Exception] lets through. *)
Inductive outcome (A : Type) : Type :=
| Returns (a : A)
| Raises (e : exn)
| RaisesBase (b : exn).
Arguments Returns {A} a.
Arguments Raises {A} e.
Arguments RaisesBase {A} b.

(** The module-level [logger]: the records emitted so far, oldest first. *)
Definition log := list string.

(** A computation that may raise and may write to the logger. What was logged
    before an exception stays logged. *)
Definition M (A : Type) : Type := log -> outcome A * log.

Definition ret {A} (a : A) : M A := fun l => (Returns a, l).

Definition raise {A} (e : exn) : M A := fun l => (Raises e, l).

Definition bind {A B} (m : M A) (k : A -> M B) : M B :=
  fun l => match m l with
           | (Returns a, l') => k a l'
           | (Raises e, l') => (Raises e, l')
           | (RaisesBase b, l') => (RaisesBase b, l')
           end.

(** [try: body  except Exception as e: handler e] *)
Definition try_except {A} (body : M A) (handler : exn -> M A) : M A :=
  fun l => match body l with
           | (Returns a, l') => (Returns a, l')
           | (Raises e, l') => handler e l'
           | (RaisesBase b, l') => (RaisesBase b, l')
           end.

(** A call into a collaborator that does not touch the logger. *)
Definition call {A} (o : outcome A) : M A := fun l => (o, l).

(** [logger.error(msg)] *)
Definition logger_error (msg : string) : M unit :=
  fun l => (Returns tt, l ++ [msg]).

Notation "'let*' x ':=' m 'in' k" := (bind m (fun x => k))
  (at level 10, x name, m at level 100, k at level 200).
Notation "'do' m 'then' k" := (bind m (fun _ => k))
  (at level 10, m at level 100, k at level 200).

(** ** Strings *)

(** [str.isspace] on one character, for code points below 256: TAB, LF, VT,
    FF, CR, FS, GS, RS, US, SPACE, NEL and NBSP. *)
Definition isspace (c : ascii) : bool :=
  let n := N_of_ascii c in
  ((9 <=? n) && (n <=? 13) || (28 <=? n) && (n <=? 32)
   || (n =? 133) || (n =? 160))%N.

Fixpoint lstrip (s : string) : string :=
  match s with
  | EmptyString => EmptyString
  | String c s' => if isspace c then lstrip s' else s
  end.

Fixpoint rstrip (s : string) : string :=
  match s with
  | EmptyString => EmptyString
  | String c s' =>
      match rstrip s' with
      | EmptyString => if isspace c then EmptyString else String c EmptyString
      | r => String c r
      end
  end.

(** [s.strip()] *)
Definition strip (s : string) : string := rstrip (lstrip s).

(** [s.split(sep)] for a one-character separator: every occurrence splits,
    empty pieces are kept, and the empty string gives one empty piece. *)
Fixpoint split (sep : ascii) (s : string) : list string :=
  match s with
  | EmptyString => [EmptyString]
  | String c s' =>
      if Ascii.eqb c sep then EmptyString :: split sep s'
      else match split sep s' with
           | piece :: rest => String c piece :: rest
           | [] => [String c EmptyString]
           end
  end.

(** [sep.join(l)] *)
Definition join (sep : string) (l : list string) : string := String.concat sep l.

Definition newline : string := String (ascii_of_nat 10) EmptyString.

(** ** Numbers *)

(** A Python number as the scorer sees it: an [int] or a [float]. A [float]
    is an IEEE 754 binary64 datum, NaN and the infinities included. *)
Inductive number :=
| Int (z : Z)
| Float (f : spec_float).

(** Exact comparison of an [int] with a [float], as Python compares them:
    no rounding of the integer, and no order at all against NaN. *)
Definition Z_compare_float (z : Z) (f : spec_float) : option comparison :=
  match f with
  | S754_nan => None
  | S754_infinity s => Some (if s then Gt else Lt)
  | S754_zero _ => Some (z ?= 0)
  | S754_finite s m e =>
      let sm := if s then Z.neg m else Z.pos m in
      Some (if 0 <=? e then z ?= sm * 2 ^ e else z * 2 ^ (- e) ?= sm)
  end.

Definition float_compare (f g : spec_float) : option comparison :=
  SFcompare f g.

Definition number_compare (a b : number) : option comparison :=
  match a, b with
  | Int x, Int y => Some (x ?= y)
  | Int x, Float g => Z_compare_float x g
  | Float f, Int y => option_map CompOpp (Z_compare_float y f)
  | Float f, Float g => float_compare f g
  end.

(** [a < b], [a > b], [a <= b] *)
Definition lt (a b : number) : bool :=
  match number_compare a b with Some Lt => true | _ => false end.
Definition gt (a b : number) : bool :=
  match number_compare a b with Some Gt => true | _ => false end.
Definition le (a b : number) : bool :=
  match number_compare a b with Some Lt | Some Eq => true | _ => false end.

(** [max(a, b)]: the first argument is kept unless the second compares
    greater. *)
Definition max (a b : number) : number := if gt b a then b else a.

(** [min(a, b)]: the first argument is kept unless the second compares
    smaller. *)
Definition min (a b : number) : number := if lt b a then b else a.

(** The float literal [0.5]. *)
Definition half : spec_float := S754_finite false 4503599627370496 (-53).


(** ** Values and dictionaries *)

(** The values a decoded JSON document holds. *)
#[warnings="-register-all"]
Inductive value :=
| None_
| Bool (b : bool)
| Num (n : number)
| Str (s : string)
| List_ (l : list value)
| Dict (d : gmap string value).

(** [d.get(key)] and [d.get(key, default)] on a [Dict[str, Any]]. *)
Definition get (d : gmap string value) (key : string) (default : value) : value :=
  match d !! key with
  | Some v => v
  | None => default
  end.

(** [bool(v)]: the truth value [not], [if] and [all] test. *)
Definition truthy (v : value) : bool :=
  match v with
  | None_ => false
  | Bool b => b
  | Num (Int z) => negb (z =? 0)
  | Num (Float (S754_zero _)) => false
  | Num (Float _) => true
  | Str s => negb (String.length s =? 0)%nat
  | List_ l => negb (length l =? 0)%nat
  | Dict d => negb (size d =? 0)%nat
  end.

(** [s.count(c)] for a one-character [c]. *)
Fixpoint count (c : ascii) (s : string) : nat :=
  match s with
  | EmptyString => 0%nat
  | String c' s' => if Ascii.eqb c' c then S (count c s') else count c s'
  end.

(** [s[:n]]: the first [n] characters, all of [s] when it is shorter. *)
Fixpoint slice_to (n : nat) (s : string) : string :=
  match n, s with
  | S n', String c s' => String c (slice_to n' s')
  | _, _ => EmptyString
  end.

(** [os.getenv(name)] on the process environment. *)
Definition getenv (environ : gmap string string) (name : string) : option string :=
  environ !! name.

(** [not api_key] on what [os.getenv] gave: unset, or set to the empty
    string. *)
Definition not_set (v : option string) : bool :=
  match v with
  | None => true
  | Some s => (String.length s =? 0)%nat
  end.

Definition ValueError (msg : string) : exn := Exn "ValueError" msg.

End Py.

(* ===================================================================== *)
(** * services.py *)
(* ===================================================================== *)

Module Services.
Import Py.

(** ** LLMService *)

Section LLMService.

(** The generative model behind [self.model] and the builtin [float]:
    - [generate_content prompt] is [self.model.generate_content(prompt)],
    - [text r] is [r.text], which the provider's library may refuse,
    - [float_of_str s] is [float(s)], with its [ValueError]. *)
Variable response : Type.
Variable generate_content : string -> outcome response.
Variable text : response -> outcome string.
Variable float_of_str : string -> outcome spec_float.

(** The source indents the lines of its prompts by twelve spaces. *)
Definition indent : string := "            ".

Definition extract_topics_prompt (query_text : string) : string :=
  newline
  +:+ indent
  +:+ "Extract 3-5 key topics from this search query for Reddit communities."
  +:+ newline
  +:+ indent +:+ "Query: " +:+ query_text +:+ newline
  +:+ indent +:+ newline
  +:+ indent
  +:+ "Return ONLY topics separated by commas, no explanations."
  +:+ newline
  +:+ indent.

Definition extract_topics (query_text : string) : M (list string) :=
  try_except
    (let prompt := extract_topics_prompt query_text in
     let* response := call (generate_content prompt) in
     let* response_text := call (text response) in
     let topics := map strip (split "," response_text) in
     ret topics)
    (fun e =>
       do logger_error ("Error extracting topics: " +:+ exn_str e) then
       ret [query_text]).

Definition score_community_relevance_prompt
    (community_name community_desc topics_str : string) : string :=
  newline
  +:+ indent
  +:+ "Rate the relevance of this Reddit community to these topics on a scale of 0-1."
  +:+ newline
  +:+ indent +:+ "Only return the number, nothing else." +:+ newline
  +:+ indent +:+ newline
  +:+ indent +:+ "Community: " +:+ community_name +:+ newline
  +:+ indent +:+ "Description: " +:+ community_desc +:+ newline
  +:+ indent +:+ "Topics: " +:+ topics_str +:+ newline
  +:+ indent.

Definition score_community_relevance
    (community_name community_desc : string) (query_topics : list string)
    : M number :=
  try_except
    (let topics_str := join ", " query_topics in
     let prompt :=
       score_community_relevance_prompt community_name community_desc topics_str in
     let* response := call (generate_content prompt) in
     let* response_text := call (text response) in
     let* score := call (float_of_str (strip response_text)) in
     ret (min (max (Float score) (Int 0)) (Int 1)))
    (fun e =>
       do logger_error ("Error scoring community: " +:+ exn_str e) then
       ret (Float half)).

(** What the provider answers to a prompt: the text of its response, or the
    exception of whichever of the two steps raised. *)
Definition provider_text (prompt : string) : outcome string :=
  match generate_content prompt with
  | Returns r => text r
  | Raises e => Raises e
  | RaisesBase b => RaisesBase b
  end.

End LLMService.

(** A number lies in the closed interval from 0 to 1. *)
Definition in_unit_interval (n : number) : bool := le (Int 0) n && le n (Int 1).

(** ** RedditScraperService *)

Definition parse_reddit_post (post_data : gmap string value) : gmap string value :=
  list_to_map
    [ ("post_id", get post_data "id" None_);
      ("title", get post_data "title" None_);
      ("content", get post_data "selftext" None_);
      ("author", get post_data "author" None_);
      ("upvotes", get post_data "score" (Num (Int 0)));
      ("comments_count", get post_data "num_comments" (Num (Int 0)));
      ("post_url", get post_data "url" None_) ].

(** [validate_post_data]: every required field is there with a true value. *)
Definition validate_post_data (post_data : gmap string value) : bool :=
  let required_fields := ["post_id"; "title"] in
  forallb (fun field => truthy (get post_data field None_)) required_fields.

(** ** LLMService, its construction *)

(** What the constructor leaves behind: the key given to [genai.configure]
    and the name of the generative model. Past the test [not api_key] the key
    is a string, so the [default] below is never used. *)
Record LLMService := {
  genai_api_key : string;
  model_name : string
}.

Definition LLMService_init (environ : gmap string string) : outcome LLMService :=
  let api_key := getenv environ "GOOGLE_GENAI_API_KEY" in
  if not_set api_key
  then Raises (ValueError "GOOGLE_GENAI_API_KEY environment variable not set")
  else Returns {| genai_api_key := default "" api_key; model_name := "gemini-pro" |}.

(** ** BrightDataService *)

Definition get_serp_config (environ : gmap string string)
    : outcome (gmap string value) :=
  let api_key := getenv environ "BRIGHT_DATA_SER_API_KEY" in
  if not_set api_key
  then Raises (ValueError "BRIGHT_DATA_SER_API_KEY environment variable not set")
  else Returns
         (list_to_map
            [ ("provider", Str "bright_data");
              ("api_key", Str (default "" api_key));
              ("search_engine", Str "google");
              ("country", Str "us");
              ("language", Str "en");
              ("parse", Bool true) ]).

(** ** CeleryTaskService *)

Section CeleryTaskService.

(** The task queue:
    - [scrape_reddit_community] is what the import of the task from the
      [tasks] module gives, or the exception of the import; the task is
      known by its [apply_async], taking the positional arguments and the
      countdown in seconds, if any;
    - [str_id t] is [str(t.id)] of the result [t] of [apply_async]. *)
Variable async_result : Type.
Variable scrape_reddit_community :
  outcome (list string -> option Z -> outcome async_result).
Variable str_id : async_result -> string.

Definition schedule_scraping_task (community_id : string) (delay_minutes : Z)
    : outcome string :=
  match scrape_reddit_community with
  | Raises e => Raises e
  | RaisesBase b => RaisesBase b
  | Returns apply_async =>
      let task :=
        if 0 <? delay_minutes
        then apply_async [community_id] (Some (delay_minutes * 60))
        else apply_async [community_id] None in
      match task with
      | Returns t => Returns (str_id t)
      | Raises e => Raises e
      | RaisesBase b => RaisesBase b
      end
  end.

End CeleryTaskService.

End Services.

(* ===================================================================== *)
(** * The store behind the models *)
(* ===================================================================== *)

Module Orm.
Import Py.

(** A [uuid.UUID] value and a point in time. *)
Definition UUID := N.
Definition datetime := Z.

(** The value of a uniqueness constraint on one row: a column, or the columns
    of a [unique_together] entry paired up. None of the constrained columns
    of the models is nullable. *)
Inductive key :=
| KUuid (u : UUID)
| KInt (z : Z)
| KStr (s : string)
| KPair (a b : key).

Global Instance key_eq_dec : EqDecision key.
Proof. solve_decision. Defined.

(** What the store needs to know of a model class. *)
Record model (R : Type) := Model {
  (** the primary key column *)
  pk : R -> UUID;
  (** [unique=True], [OneToOneField] and [Meta.unique_together] *)
  unique : list (R -> key);
  (** the fields a save fills in: [auto_now_add] when the row is added,
      [auto_now] on every save *)
  pre_save : bool -> datetime -> R -> R
}.
Arguments pk {R} m r.
Arguments unique {R} m.
Arguments pre_save {R} m add now r.

(** What the database answers to a write that breaks a constraint. *)
Definition IntegrityError : exn := Exn "IntegrityError" "UNIQUE constraint failed".

Section Table.
Context {R : Type}.
Variable m : model R.

(** Every uniqueness constraint of the model, the primary key first. *)
Definition unique_keys : list (R -> key) := (fun r => KUuid (pk m r)) :: unique m.

(** Two rows cannot both be stored: they agree on some constraint. *)
Definition conflicts (r r' : R) : bool :=
  existsb (fun k => bool_decide (k r = k r')) unique_keys.

Definition same_pk (r r' : R) : bool := bool_decide (pk m r' = pk m r).

(** A write on the table: the table afterwards, and the row written or the
    exception. A write that raises leaves the table as it was. *)
Definition write : Type := list R -> outcome R * list R.

(** INSERT, as far as the uniqueness constraints of the table decide it: a
    row that agrees with a stored row on one of them is refused. What the
    database checks besides lies outside the table and is not modelled: that
    a foreign key names a stored row, that an integer fits its column, that
    a float is a number. A row refused here is refused by the database; a row
    accepted here may still be refused by it on those grounds. *)
Definition insert (r : R) : write :=
  fun tbl =>
    if existsb (conflicts r) tbl then (Raises IntegrityError, tbl)
    else (Returns r, tbl ++ [r]).

(** UPDATE ... WHERE id = pk r, with the same reach as [insert]. *)
Definition update (r : R) : write :=
  fun tbl =>
    if existsb (fun r' => negb (same_pk r r') && conflicts r r') tbl
    then (Raises IntegrityError, tbl)
    else (Returns r, map (fun r' => if same_pk r r' then r else r') tbl).

(** [Model.objects.create] with its keyword arguments, given the instance
    the model class builds from them: a forced insert. *)
Definition create (now : datetime) (r : R) : write :=
  insert (pre_save m true now r).

(** [instance.save()] for an instance that was loaded from the table or
    saved before: an update of the row with the instance's primary key, and
    an insert when that row is gone. An instance that was never saved is
    written by [create]: Django inserts it without trying an update. *)
Definition save (now : datetime) (r : R) : write :=
  fun tbl =>
    if existsb (same_pk r) tbl then update (pre_save m false now r) tbl
    else insert (pre_save m true now r) tbl.

(** [instance.delete()] *)
Definition delete (id : UUID) (tbl : list R) : list R :=
  filter (fun r => pk m r <> id) tbl.

(** [Model.objects.get(pk=id)] *)
Definition get_pk (id : UUID) (tbl : list R) : option R :=
  find (fun r => bool_decide (pk m r = id)) tbl.

(** The writes a client of the store can issue. *)
Inductive op :=
| Create (now : datetime) (r : R)
| Save (now : datetime) (r : R)
| Delete (id : UUID).

Definition exec (o : op) (tbl : list R) : list R :=
  match o with
  | Create now r => snd (create now r tbl)
  | Save now r => snd (save now r tbl)
  | Delete id => delete id tbl
  end.

Definition run (ops : list op) : list R :=
  fold_left (fun tbl o => exec o tbl) ops [].

(** The tables that arise from the empty one. *)
Inductive reachable : list R -> Prop :=
| reachable_empty : reachable []
| reachable_exec o tbl : reachable tbl -> reachable (exec o tbl).

(** No two rows of the table conflict. *)
Inductive consistent : list R -> Prop :=
| consistent_nil : consistent []
| consistent_cons r tbl :
    Forall (fun r' => conflicts r r' = false) tbl ->
    consistent tbl ->
    consistent (r :: tbl).

End Table.

End Orm.

(* ===================================================================== *)
(** * models.py *)
(* ===================================================================== *)

(** Each model class is a record of its columns, in the order of the source.
    A column with [null=True] is an [option]; so is a column with
    [auto_now_add] or [auto_now], which is empty until the first save. A
    foreign key holds the primary key of the row it refers to, a [User] being
    referred to by its integer key. The constructor [new] is the call of the
    model class: columns that declare a default, or are nullable, may be left
    out. *)

Module Models.
Import Py Orm.

(** A keyword argument that may be left out. *)
Definition or_default {A} (given : option A) (default : A) : A :=
  match given with
  | Some a => a
  | None => default
  end.

Module Query.

Definition STATUS_CHOICES : list (string * string) :=
  [ ("pending", "Pending");
    ("processing", "Processing");
    ("completed", "Completed");
    ("failed", "Failed") ].

Record t := Build {
  id : UUID;
  user : Z;
  search_text : string;
  status : string;
  created_at : option datetime;
  updated_at : option datetime;
  completed_at : option datetime;
  error_message : option string
}.

Definition new (uuid4 : UUID) (user : Z) (search_text : string)
    (status : option string) (completed_at : option datetime)
    (error_message : option string) : t :=
  {| id := uuid4;
     user := user;
     search_text := search_text;
     status := or_default status "pending";
     created_at := None;
     updated_at := None;
     completed_at := completed_at;
     error_message := error_message |}.

Definition pre_save (add : bool) (now : datetime) (q : t) : t :=
  {| id := id q;
     user := user q;
     search_text := search_text q;
     status := status q;
     created_at := if add then Some now else created_at q;
     updated_at := Some now;
     completed_at := completed_at q;
     error_message := error_message q |}.

Definition model : Orm.model t :=
  {| pk := id; unique := []; Orm.pre_save := pre_save |}.

(** [q.status = s] *)
Definition set_status (s : string) (q : t) : t :=
  {| id := id q;
     user := user q;
     search_text := search_text q;
     status := s;
     created_at := created_at q;
     updated_at := updated_at q;
     completed_at := completed_at q;
     error_message := error_message q |}.

(** The statuses the source lists. *)
Definition is_choice (s : string) : bool :=
  existsb (fun c => String.eqb (fst c) s) STATUS_CHOICES.

(** The statuses the lifecycle ends in. *)
Definition terminal (s : string) : bool :=
  String.eqb s "completed" || String.eqb s "failed".

End Query.

Module RedditCommunity.

Record t := Build {
  id : UUID;
  query : UUID;
  name : string;
  description : string;
  url : string;
  members_count : Z;
  relevance_score : spec_float;
  is_trackable : bool;
  discovered_at : option datetime
}.

Definition new (uuid4 : UUID) (query : UUID) (name description url : string)
    (members_count : option Z) (relevance_score : option spec_float)
    (is_trackable : option bool) : t :=
  {| id := uuid4;
     query := query;
     name := name;
     description := description;
     url := url;
     members_count := or_default members_count 0;
     relevance_score := or_default relevance_score (S754_zero false);
     is_trackable := or_default is_trackable false;
     discovered_at := None |}.

Definition pre_save (add : bool) (now : datetime) (c : t) : t :=
  {| id := id c;
     query := query c;
     name := name c;
     description := description c;
     url := url c;
     members_count := members_count c;
     relevance_score := relevance_score c;
     is_trackable := is_trackable c;
     discovered_at := if add then Some now else discovered_at c |}.

(** [unique_together = ['query', 'name']] *)
Definition query_name (c : t) : key := KPair (KUuid (query c)) (KStr (name c)).

Definition model : Orm.model t :=
  {| pk := id; unique := [query_name]; Orm.pre_save := pre_save |}.

End RedditCommunity.

Module RedditPost.

Record t := Build {
  id : UUID;
  community : UUID;
  post_id : string;
  title : string;
  content : string;
  author : string;
  upvotes : Z;
  comments_count : Z;
  post_url : string;
  created_at_reddit : datetime;
  scraped_at : option datetime
}.

Definition new (uuid4 : UUID) (community : UUID)
    (post_id title content author : string)
    (upvotes comments_count : option Z)
    (post_url : string) (created_at_reddit : datetime) : t :=
  {| id := uuid4;
     community := community;
     post_id := post_id;
     title := title;
     content := content;
     author := author;
     upvotes := or_default upvotes 0;
     comments_count := or_default comments_count 0;
     post_url := post_url;
     created_at_reddit := created_at_reddit;
     scraped_at := None |}.

Definition pre_save (add : bool) (now : datetime) (p : t) : t :=
  {| id := id p;
     community := community p;
     post_id := post_id p;
     title := title p;
     content := content p;
     author := author p;
     upvotes := upvotes p;
     comments_count := comments_count p;
     post_url := post_url p;
     created_at_reddit := created_at_reddit p;
     scraped_at := if add then Some now else scraped_at p |}.

(** [post_id = models.CharField(max_length=50, unique=True)] *)
Definition post_id_key (p : t) : key := KStr (post_id p).

Definition model : Orm.model t :=
  {| pk := id; unique := [post_id_key]; Orm.pre_save := pre_save |}.

End RedditPost.

Module TrackableItem.

Record t := Build {
  id : UUID;
  community : UUID;
  user : Z;
  tracking_enabled : bool;
  last_scraped_at : option datetime;
  scrape_frequency_hours : Z;
  created_at : option datetime
}.

Definition new (uuid4 : UUID) (community : UUID) (user : Z)
    (tracking_enabled : option bool) (last_scraped_at : option datetime)
    (scrape_frequency_hours : option Z) : t :=
  {| id := uuid4;
     community := community;
     user := user;
     tracking_enabled := or_default tracking_enabled true;
     last_scraped_at := last_scraped_at;
     scrape_frequency_hours := or_default scrape_frequency_hours 24;
     created_at := None |}.

Definition pre_save (add : bool) (now : datetime) (i : t) : t :=
  {| id := id i;
     community := community i;
     user := user i;
     tracking_enabled := tracking_enabled i;
     last_scraped_at := last_scraped_at i;
     scrape_frequency_hours := scrape_frequency_hours i;
     created_at := if add then Some now else created_at i |}.

(** [community = models.OneToOneField(RedditCommunity, ...)] *)
Definition community_key (i : t) : key := KUuid (community i).

(** [unique_together = ['community', 'user']] *)
Definition community_user (i : t) : key :=
  KPair (KUuid (community i)) (KInt (user i)).

Definition model : Orm.model t :=
  {| pk := id;
     unique := [community_key; community_user];
     Orm.pre_save := pre_save |}.

End TrackableItem.

Module Snapshot.

Definition STATUS_CHOICES : list (string * string) :=
  [ ("pending", "Pending");
    ("in_progress", "In Progress");
    ("completed", "Completed");
    ("failed", "Failed") ].

Record t := Build {
  id : UUID;
  community : UUID;
  status : string;
  started_at : option datetime;
  completed_at : option datetime;
  posts_scraped : Z;
  error_message : option string;
  webhook_delivered : bool
}.

Definition new (uuid4 : UUID) (community : UUID) (status : option string)
    (completed_at : option datetime) (posts_scraped : option Z)
    (error_message : option string) (webhook_delivered : option bool) : t :=
  {| id := uuid4;
     community := community;
     status := or_default status "pending";
     started_at := None;
     completed_at := completed_at;
     posts_scraped := or_default posts_scraped 0;
     error_message := error_message;
     webhook_delivered := or_default webhook_delivered false |}.

Definition pre_save (add : bool) (now : datetime) (s : t) : t :=
  {| id := id s;
     community := community s;
     status := status s;
     started_at := if add then Some now else started_at s;
     completed_at := completed_at s;
     posts_scraped := posts_scraped s;
     error_message := error_message s;
     webhook_delivered := webhook_delivered s |}.

Definition model : Orm.model t :=
  {| pk := id; unique := []; Orm.pre_save := pre_save |}.

(** A snapshot that has not reached [completed] or [failed]. *)
Definition in_flight (s : t) : bool :=
  String.eqb (status s) "pending" || String.eqb (status s) "in_progress".

(** The snapshots of a community that are in flight. *)
Definition in_flight_of (community_id : UUID) (tbl : list t) : list t :=
  List.filter (fun s => bool_decide (community s = community_id) && in_flight s) tbl.

End Snapshot.

Module TaskLog.

Definition TASK_TYPES : list (string * string) :=
  [ ("scrape", "Scrape Community");
    ("process", "Process Results");
    ("notify", "Send Notification") ].

Record t := Build {
  id : UUID;
  task_type : string;
  task_id : string;
  related_object : string;
  started_at : option datetime;
  completed_at : option datetime;
  status : string;
  result : option value;
  error : option string
}.

Definition new (uuid4 : UUID) (task_type task_id related_object : string)
    (completed_at : option datetime) (status : option string)
    (result : option value) (error : option string) : t :=
  {| id := uuid4;
     task_type := task_type;
     task_id := task_id;
     related_object := related_object;
     started_at := None;
     completed_at := completed_at;
     status := or_default status "pending";
     result := result;
     error := error |}.

Definition pre_save (add : bool) (now : datetime) (l : t) : t :=
  {| id := id l;
     task_type := task_type l;
     task_id := task_id l;
     related_object := related_object l;
     started_at := if add then Some now else started_at l;
     completed_at := completed_at l;
     status := status l;
     result := result l;
     error := error l |}.

(** [task_id = models.CharField(max_length=255, unique=True)] *)
Definition task_id_key (l : t) : key := KStr (task_id l).

Definition model : Orm.model t :=
  {| pk := id; unique := [task_id_key]; Orm.pre_save := pre_save |}.

End TaskLog.

(** ** The [__str__] methods

    A method that follows a foreign key takes the row the key refers to; a
    [User] is known by its [username]. *)

Definition Query__str__ (username : string) (self : Query.t) : string :=
  username +:+ " - " +:+ slice_to 50 (Query.search_text self).

Definition RedditCommunity__str__ (self : RedditCommunity.t) : string :=
  RedditCommunity.name self.

Definition RedditPost__str__ (community : RedditCommunity.t) (self : RedditPost.t)
    : string :=
  RedditCommunity.name community +:+ " - " +:+ slice_to 50 (RedditPost.title self).

Definition TrackableItem__str__ (community : RedditCommunity.t)
    (self : TrackableItem.t) : string :=
  "Track: " +:+ RedditCommunity.name community.

Definition Snapshot__str__ (community : RedditCommunity.t) (self : Snapshot.t)
    : string :=
  RedditCommunity.name community +:+ " - " +:+ Snapshot.status self.

End Models.

(* ===================================================================== *)
(** * serializers.py *)
(* ===================================================================== *)

Module Serializers.
Import Py Orm Models.

(** [RedditCommunitySerializer.get_posts_count]: [obj.posts.count()], the
    number of posts whose [community] is [obj]. *)
Definition get_posts_count (posts : list RedditPost.t) (obj : RedditCommunity.t)
    : nat :=
  length
    (List.filter
       (fun p => bool_decide (RedditPost.community p = RedditCommunity.id obj))
       posts).

End Serializers.


(** ** Sample collaborators

    Providers and a table of [float] that the examples below run the
    services on. *)
Module Samples.
Import Py.

(** A provider whose call raises. *)
Definition failing_provider : string -> outcome string :=
  fun _ => Raises (Exn "ResourceExhausted" "429 quota exceeded").

(** A provider that answers every prompt with the same text. *)
Definition answering (answer : string) : string -> outcome string :=
  fun _ => Returns answer.

(** [response.text] of a response that is its own text. *)
Definition text_of : string -> outcome string := Returns.

(** [float] on the texts of the examples: the literals [nan] and [0.5], and
    the word [high], which is no number. *)
Definition float_of_example (s : string) : outcome spec_float :=
  if String.eqb s "nan" then Returns S754_nan
  else if String.eqb s "0.5" then Returns half
  else Raises (Exn "ValueError" ("could not convert string to float: '" +:+ s +:+ "'")).

(** Rows of the kind the pipeline writes. *)
Import Orm Models.

Definition python_community : RedditCommunity.t :=
  RedditCommunity.new 1%N 100%N "r/python" "News about the Python language"
    "https://www.reddit.com/r/python" None None None.

Definition python_again : RedditCommunity.t :=
  RedditCommunity.new 2%N 100%N "r/python" "Python, found a second time"
    "https://www.reddit.com/r/python" None None None.

Definition golang_community : RedditCommunity.t :=
  RedditCommunity.new 3%N 100%N "r/golang" "The Go programming language"
    "https://www.reddit.com/r/golang" None None None.

Definition communities : list RedditCommunity.t :=
  run RedditCommunity.model
    [Create 10 python_community; Create 11 python_again; Create 12 golang_community].

Definition first_post : RedditPost.t :=
  RedditPost.new 1%N 1%N "t3_abc" "What is new in 3.13" "..." "guido" None None
    "https://www.reddit.com/r/python/comments/abc" 5.

(** The same post, scraped again, under another community. *)
Definition first_post_again : RedditPost.t :=
  RedditPost.new 2%N 3%N "t3_abc" "What is new in 3.13" "..." "guido" (Some 7) None
    "https://www.reddit.com/r/python/comments/abc" 5.

Definition posts : list RedditPost.t :=
  run RedditPost.model [Create 20 first_post; Create 30 first_post_again].

Definition a_query : Query.t :=
  Query.new 7%N 1 "best programming communities" None None None.

(** A query that was created, processed and completed. *)
Definition completed_query : Query.t :=
  Query.pre_save false 3
    (Query.set_status "completed" (Query.pre_save true 1 a_query)).

Definition queries : list Query.t :=
  run Query.model
    [Create 1 a_query;
     Save 2 (Query.set_status "processing" (Query.pre_save true 1 a_query));
     Save 3 (Query.set_status "completed" (Query.pre_save true 1 a_query))].

(** Two snapshots of community 1, neither started yet. *)
Definition snapshots : list Snapshot.t :=
  run Snapshot.model
    [Create 40 (Snapshot.new 1%N 1%N None None None None None);
     Create 41 (Snapshot.new 2%N 1%N None None None None None)].

(** Community 1 tracked by user 1. *)
Definition tracked : list TrackableItem.t :=
  run TrackableItem.model
    [Create 50 (TrackableItem.new 1%N 1%N 1 None None None)].

(** Community 1 tracked by user 1, with a cadence that is not positive. *)
Definition tracked_backwards : list TrackableItem.t :=
  run TrackableItem.model
    [Create 50 (TrackableItem.new 1%N 1%N 1 None None (Some (-3)))].

(** A third snapshot of community 1, as stored at time 42. *)
Definition third_snapshot : Snapshot.t :=
  Snapshot.pre_save true 42 (Snapshot.new 3%N 1%N None None None None None).


(** A provider whose call is interrupted from the keyboard. *)
Definition interrupted_provider : string -> outcome string :=
  fun _ => RaisesBase (Exn "KeyboardInterrupt" "").

(** A raw post, and the same post with an entry more. *)
Definition raw_post : gmap string value :=
  {[ "id" := Str "t3_abc"; "title" := Str "What is new in 3.13";
     "score" := Num (Int 42) ]}.

Definition raw_post_dated : gmap string value :=
  <[ "created_utc" := Num (Int 1700000000) ]> raw_post.

(** r/python once more, found under another query. *)
Definition python_elsewhere : RedditCommunity.t :=
  RedditCommunity.new 4%N 200%N "r/python" "News about the Python language"
    "https://www.reddit.com/r/python" None None None.

(** A second post of community 1. *)
Definition second_post : RedditPost.t :=
  RedditPost.new 3%N 1%N "t3_def" "Typing news" "..." "jelle" None None
    "https://www.reddit.com/r/python/comments/def" 6.

(** One scraping task, logged. *)
Definition task_logs : list TaskLog.t :=
  run TaskLog.model
    [Create 70 (TaskLog.new 1%N "scrape" "celery-1" "r/python" None None None None)].

End Samples.

(* ===================================================================== *)
(** * Properties of the services *)
(* ===================================================================== *)

Section ServicesFacts.
Import Py Services.

Variable response : Type.
Variable generate_content : string -> outcome response.
Variable text : response -> outcome string.
Variable float_of_str : string -> outcome spec_float.

Local Abbreviation provider := (provider_text response generate_content text).
Local Abbreviation extract := (extract_topics response generate_content text).
Local Abbreviation score :=
  (score_community_relevance response generate_content text float_of_str).

(** The two steps of the provider call, run in the monad, are
    [provider_text]. *)
Lemma provider_call (prompt : string) (l : log) :
  bind (call (generate_content prompt)) (fun r => call (text r)) l
  = (provider prompt, l).
Proof.
  unfold bind, call, provider_text.
  destruct (generate_content prompt); reflexivity.
Qed.

Lemma extract_topics_unfold (query_text : string) (l : log) :
  extract query_text l =
  match provider (extract_topics_prompt query_text) with
  | Returns s => (Returns (map strip (split "," s)), l)
  | Raises e =>
      (Returns [query_text], l ++ ["Error extracting topics: " +:+ exn_str e])
  | RaisesBase b => (RaisesBase b, l)
  end.
Proof.
  unfold extract_topics, try_except, bind, call, ret, logger_error, provider_text.
  destruct (generate_content _) as [r|e|b]; [|reflexivity..].
  destruct (text r); reflexivity.
Qed.

Lemma score_unfold (name desc : string) (topics : list string) (l : log) :
  score name desc topics l =
  match provider (score_community_relevance_prompt name desc (join ", " topics)) with
  | Returns s =>
      match float_of_str (strip s) with
      | Returns f => (Returns (min (max (Float f) (Int 0)) (Int 1)), l)
      | Raises e =>
          (Returns (Float half), l ++ ["Error scoring community: " +:+ exn_str e])
      | RaisesBase b => (RaisesBase b, l)
      end
  | Raises e =>
      (Returns (Float half), l ++ ["Error scoring community: " +:+ exn_str e])
  | RaisesBase b => (RaisesBase b, l)
  end.
Proof.
  unfold score_community_relevance, try_except, bind, call, ret, logger_error,
    provider_text.
  destruct (generate_content _) as [r|e|b]; [|reflexivity..].
  destruct (text r) as [s|e|b]; [|reflexivity..].
  destruct (float_of_str (strip s)); reflexivity.
Qed.

End ServicesFacts.

Section Clamp.
Import Py Services.


(** Against NaN every comparison is false, so [max] and [min] keep it. *)
Lemma clamp_nan : min (max (Float S754_nan) (Int 0)) (Int 1) = Float S754_nan.
Proof. reflexivity. Qed.


(** The clamp on 2.0, on -3.0 and on positive infinity. *)
Example clamp_above :
  min (max (Float (S754_finite false 4503599627370496 (-51))) (Int 0)) (Int 1) = Int 1.
Proof. reflexivity. Qed.

Example clamp_below :
  min (max (Float (S754_finite true 6755399441055744 (-51))) (Int 0)) (Int 1) = Int 0.
Proof. reflexivity. Qed.

Example clamp_infinity :
  min (max (Float (S754_infinity false)) (Int 0)) (Int 1) = Int 1.
Proof. reflexivity. Qed.

End Clamp.

Section ServicesClaims.
Import Py Services.

Variable response : Type.
Variable generate_content : string -> outcome response.
Variable text : response -> outcome string.
Variable float_of_str : string -> outcome spec_float.

Local Abbreviation provider := (provider_text response generate_content text).
Local Abbreviation extract := (extract_topics response generate_content text).
Local Abbreviation score :=
  (score_community_relevance response generate_content text float_of_str).


(** C1, at the input on which the code departs from it: when the provider's
    text reads as NaN ([float] accepts the text [nan]), neither comparison
    of the clamp [min(max(score, 0), 1)] is true, so
    [score_community_relevance] returns NaN, which is not in [0,1]. *)
Theorem score_nan_not_clamped
    (name desc : string) (topics : list string) (l : log) (s : string) :
  provider (score_community_relevance_prompt name desc (join ", " topics))
  = Returns s ->
  float_of_str (strip s) = Returns S754_nan ->
  score name desc topics l = (Returns (Float S754_nan), l)
  /\ in_unit_interval (Float S754_nan) = false.
Proof.
  intros Hp Hf. rewrite score_unfold, Hp, Hf, clamp_nan. done.
Qed.

(** C2: when the provider call inside [extract_topics] raises,
    [extract_topics] returns the one-element list holding the query text;
    the exception is logged, not raised. *)
Theorem extract_topics_degrades
    (query_text : string) (l : log) (e : exn) :
  provider (extract_topics_prompt query_text) = Raises e ->
  extract query_text l
  = (Returns [query_text], l ++ ["Error extracting topics: " +:+ exn_str e]).
Proof.
  intros Hp. by rewrite extract_topics_unfold, Hp.
Qed.

(** C3: when the scoring call fails, the provider raising or its text not
    being a number, [score_community_relevance] returns 0.5 and does not
    raise. *)
Theorem score_failure_gives_half
    (name desc : string) (topics : list string) (l : log) (e : exn) :
  let prompt := score_community_relevance_prompt name desc (join ", " topics) in
  (provider prompt = Raises e
   \/ exists s, provider prompt = Returns s /\ float_of_str (strip s) = Raises e) ->
  score name desc topics l
  = (Returns (Float half), l ++ ["Error scoring community: " +:+ exn_str e]).
Proof.
  intros prompt [Hp | (s & Hp & Hf)]; subst prompt; rewrite score_unfold, Hp.
  - done.
  - by rewrite Hf.
Qed.

End ServicesClaims.

Section ServicesWitnesses.
Import Py Services Samples.

Lemma score_nan_not_clamped_witness :
  score_community_relevance string (answering " nan ") text_of float_of_example
    "r/python" "News about the Python language" ["programming"; "coding"] []
  = (Returns (Float S754_nan), [])
  /\ in_unit_interval (Float S754_nan) = false.
Proof.
  apply (score_nan_not_clamped string (answering " nan ") text_of float_of_example
           "r/python" "News about the Python language" ["programming"; "coding"]
           [] " nan "); reflexivity.
Defined.

Lemma extract_topics_degrades_witness :
  extract_topics string failing_provider text_of "best programming communities" []
  = (Returns ["best programming communities"],
     ["Error extracting topics: 429 quota exceeded"]).
Proof.
  apply (extract_topics_degrades string failing_provider text_of
           "best programming communities" []
           (Exn "ResourceExhausted" "429 quota exceeded")).
  reflexivity.
Defined.

Lemma score_failure_gives_half_witness :
  score_community_relevance string (answering "high") text_of float_of_example
    "r/golang" "The Go programming language" ["programming"; "coding"] []
  = (Returns (Float half),
     ["Error scoring community: could not convert string to float: 'high'"]).
Proof.
  apply (score_failure_gives_half string (answering "high") text_of float_of_example
           "r/golang" "The Go programming language" ["programming"; "coding"] []
           (Exn "ValueError" "could not convert string to float: 'high'")).
  right. exists "high". split; reflexivity.
Defined.

End ServicesWitnesses.

Section ParseClaims.
Import Py Services.

(** C10: [parse_reddit_post d] has exactly the keys [post_id], [title],
    [content], [author], [upvotes], [comments_count] and [post_url]; each
    holds what [d] has under [id], [title], [selftext], [author], [score],
    [num_comments] and [url]; where [d] has no such key, [upvotes] and
    [comments_count] are 0 and the other five are [None]. *)
Theorem parse_reddit_post_keys_and_values (d : gmap string value) :
  dom (parse_reddit_post d)
  = list_to_set
      ["post_id"; "title"; "content"; "author"; "upvotes"; "comments_count";
       "post_url"]
  /\ parse_reddit_post d !! "post_id" = Some (default None_ (d !! "id"))
  /\ parse_reddit_post d !! "title" = Some (default None_ (d !! "title"))
  /\ parse_reddit_post d !! "content" = Some (default None_ (d !! "selftext"))
  /\ parse_reddit_post d !! "author" = Some (default None_ (d !! "author"))
  /\ parse_reddit_post d !! "upvotes" = Some (default (Num (Int 0)) (d !! "score"))
  /\ parse_reddit_post d !! "comments_count"
     = Some (default (Num (Int 0)) (d !! "num_comments"))
  /\ parse_reddit_post d !! "post_url" = Some (default None_ (d !! "url")).
Proof.
  unfold parse_reddit_post, get.
  split.
  - rewrite dom_list_to_map_L. reflexivity.
  - repeat split; cbn [list_to_map foldr uncurry fst snd];
      simplify_map_eq; by destruct (d !! _).
Qed.

End ParseClaims.

(* ===================================================================== *)
(** * Properties of the store *)
(* ===================================================================== *)

Section TableFacts.
Import Py Orm.
Context {R : Type}.
Variable m : model R.

Lemma existsb_false_Forall (f : R -> bool) (l : list R) :
  existsb f l = false <-> Forall (fun x => f x = false) l.
Proof.
  induction l as [|x l IH]; simpl.
  - split; [constructor | done].
  - rewrite orb_false_iff, IH, Forall_cons. done.
Qed.

Lemma existsb_true_elem (f : R -> bool) (l : list R) :
  existsb f l = true <-> exists x, x ∈ l /\ f x = true.
Proof.
  rewrite existsb_exists. split; intros (x & Hx & Hf); exists x;
    (split; [by apply list_elem_of_In | done]).
Qed.

Lemma conflicts_sym (r r' : R) : conflicts m r r' = conflicts m r' r.
Proof.
  unfold conflicts. induction (unique_keys m) as [|k ks IH]; simpl; [done|].
  rewrite IH. f_equal. apply bool_decide_ext. split; congruence.
Qed.

Lemma conflicts_true (r r' : R) :
  conflicts m r r' = true <-> exists k, k ∈ unique_keys m /\ k r = k r'.
Proof.
  unfold conflicts. rewrite existsb_exists. split.
  - intros (k & Hk & Hd). exists k. split; [by apply list_elem_of_In|].
    by apply bool_decide_eq_true in Hd.
  - intros (k & Hk & Hd). exists k. split; [by apply list_elem_of_In|].
    by apply bool_decide_eq_true.
Qed.

Lemma conflicts_same_pk (r r' : R) : pk m r = pk m r' -> conflicts m r r' = true.
Proof.
  intros H. apply conflicts_true. exists (fun r => KUuid (pk m r)).
  split; [left | by rewrite H].
Qed.

Lemma same_pk_conflicts (r r' : R) : same_pk m r r' = true -> conflicts m r r' = true.
Proof.
  unfold same_pk. intros H%bool_decide_eq_true. by apply conflicts_same_pk.
Qed.

(** ** What [insert] answers *)

Lemma insert_rejects (r r' : R) (tbl : list R) :
  r' ∈ tbl -> conflicts m r r' = true ->
  insert m r tbl = (Raises IntegrityError, tbl).
Proof.
  intros Hin Hc. unfold insert.
  replace (existsb (conflicts m r) tbl) with true; [done|].
  symmetry. apply existsb_true_elem. eauto.
Qed.

Lemma insert_accepts (r : R) (tbl : list R) :
  Forall (fun r' => conflicts m r r' = false) tbl ->
  insert m r tbl = (Returns r, tbl ++ [r]).
Proof.
  intros H%existsb_false_Forall. unfold insert. by rewrite H.
Qed.

(** ** Consistency is kept by every write *)

Lemma consistent_snoc (r : R) (tbl : list R) :
  consistent m tbl ->
  Forall (fun r' => conflicts m r r' = false) tbl ->
  consistent m (tbl ++ [r]).
Proof.
  induction 1 as [|r0 tbl Hr0 Htbl IH]; intros Hr; simpl.
  - constructor; [constructor | constructor].
  - apply Forall_cons in Hr as [Hr0r Hr]. constructor.
    + apply Forall_app. split; [done|].
      constructor; [by rewrite conflicts_sym | constructor].
    + by apply IH.
Qed.

Lemma insert_consistent (r : R) (tbl : list R) :
  consistent m tbl -> consistent m (snd (insert m r tbl)).
Proof.
  intros Hc. unfold insert.
  destruct (existsb (conflicts m r) tbl) eqn:E; simpl; [done|].
  apply consistent_snoc; [done|]. by apply existsb_false_Forall.
Qed.

Lemma update_consistent (r : R) (tbl : list R) :
  consistent m tbl -> consistent m (snd (update m r tbl)).
Proof.
  intros Hc. unfold update.
  destruct (existsb _ tbl) eqn:E; simpl; [done|].
  apply existsb_false_Forall in E.
  induction Hc as [|r0 tbl Hr0 Htbl IH]; simpl; [constructor|].
  apply Forall_cons in E as [E0 E].
  destruct (same_pk m r r0) eqn:Hpk.
  - (* the row being replaced: no other row has its key *)
    assert (Hrest : Forall (fun r' => same_pk m r r' = false) tbl).
    { eapply Forall_impl; [exact Hr0|]. intros r' Hc'. simpl in Hc'.
      destruct (same_pk m r r') eqn:Hpk'; [|done].
      unfold same_pk in Hpk, Hpk'.
      apply bool_decide_eq_true in Hpk, Hpk'.
      rewrite conflicts_same_pk in Hc'; [done | congruence]. }
    assert (Hid : map (fun r' => if same_pk m r r' then r else r') tbl = tbl).
    { clear -Hrest. induction Hrest as [|x l Hx _ IH']; simpl; [done|].
      by rewrite Hx, IH'. }
    rewrite Hid. constructor; [|done].
    apply Forall_forall. intros x Hx.
    pose proof (proj1 (Forall_forall _ _) E x Hx) as Ex.
    pose proof (proj1 (Forall_forall _ _) Hrest x Hx) as Hx'.
    simpl in Ex. by rewrite Hx' in Ex.
  - (* another row: it stays, and does not conflict with the new one *)
    cbn [negb andb] in E0.
    constructor; [|by apply IH].
    apply Forall_forall. intros x (y & -> & Hy)%list_elem_of_fmap.
    destruct (same_pk m r y).
    + by rewrite conflicts_sym.
    + exact (proj1 (Forall_forall _ _) Hr0 y Hy).
Qed.

Lemma delete_consistent (id : UUID) (tbl : list R) :
  consistent m tbl -> consistent m (delete m id tbl).
Proof.
  unfold delete. induction 1 as [|r0 tbl Hr0 Htbl IH]; [constructor|].
  rewrite filter_cons. case_decide; [|done].
  constructor; [|done].
  apply Forall_forall. intros x [_ Hx]%list_elem_of_filter.
  exact (proj1 (Forall_forall _ _) Hr0 x Hx).
Qed.

Lemma exec_consistent (o : op) (tbl : list R) :
  consistent m tbl -> consistent m (exec m o tbl).
Proof.
  intros Hc. destruct o as [now r | now r | id]; simpl.
  - by apply insert_consistent.
  - unfold save. destruct (existsb _ tbl).
    + by apply update_consistent.
    + by apply insert_consistent.
  - by apply delete_consistent.
Qed.

Lemma reachable_consistent (tbl : list R) :
  reachable m tbl -> consistent m tbl.
Proof.
  induction 1; [constructor | by apply exec_consistent].
Qed.

Lemma run_snoc (ops : list op) (o : op) :
  run m (ops ++ [o]) = exec m o (run m ops).
Proof. unfold run. by rewrite fold_left_app. Qed.

Lemma run_reachable (ops : list op) : reachable m (run m ops).
Proof.
  induction ops as [|o ops IH] using rev_ind.
  - constructor.
  - rewrite run_snoc. by constructor.
Qed.

(** In a consistent table, rows that agree on a constraint are one row. *)
Lemma consistent_lookup (tbl : list R) (i j : nat) (r r' : R) :
  consistent m tbl ->
  tbl !! i = Some r -> tbl !! j = Some r' ->
  conflicts m r r' = true -> i = j.
Proof.
  intros Hc. revert i j.
  induction Hc as [|r0 tbl Hr0 Htbl IH]; intros i j Hi Hj Hconf; [done|].
  destruct i as [|i], j as [|j]; simpl in *.
  - done.
  - injection Hi as <-. apply list_elem_of_lookup_2 in Hj.
    pose proof (proj1 (Forall_forall _ _) Hr0 r' Hj) as H. simpl in H. congruence.
  - injection Hj as <-. apply list_elem_of_lookup_2 in Hi.
    pose proof (proj1 (Forall_forall _ _) Hr0 r Hi) as H. simpl in H.
    rewrite conflicts_sym in H. congruence.
  - f_equal. by eapply IH.
Qed.

Lemma reachable_unique (tbl : list R) (k : R -> key) (i j : nat) (r r' : R) :
  reachable m tbl -> k ∈ unique_keys m ->
  tbl !! i = Some r -> tbl !! j = Some r' ->
  k r = k r' -> i = j.
Proof.
  intros Hr Hk Hi Hj Heq.
  eapply consistent_lookup; eauto using reachable_consistent.
  apply conflicts_true. eauto.
Qed.

(** ** Reading back what was saved *)

Lemma get_pk_update (r : R) (tbl : list R) :
  existsb (same_pk m r) tbl = true ->
  get_pk m (pk m r) (map (fun r' => if same_pk m r r' then r else r') tbl) = Some r.
Proof.
  unfold get_pk. induction tbl as [|r0 tbl IH]; simpl; [done|].
  destruct (same_pk m r r0) eqn:Hpk; simpl.
  - intros _. by rewrite bool_decide_eq_true_2.
  - intros H. unfold same_pk in Hpk. rewrite Hpk. by apply IH.
Qed.

End TableFacts.

(* ===================================================================== *)
(** * Properties of the models *)
(* ===================================================================== *)

Section DedupClaims.
Import Py Orm Models.

(** C4: in every table of communities the store can reach, two rows with
    the same query and the same name are one row; and creating a community
    whose (query, name) pair is already there is refused, the table, and so
    the record seen first, staying as it was. *)
Theorem community_unique_per_query (tbl : list RedditCommunity.t) :
  reachable RedditCommunity.model tbl ->
  (forall (i j : nat) (c1 c2 : RedditCommunity.t),
      tbl !! i = Some c1 -> tbl !! j = Some c2 ->
      RedditCommunity.query c1 = RedditCommunity.query c2 ->
      RedditCommunity.name c1 = RedditCommunity.name c2 ->
      i = j)
  /\ (forall (now : datetime) (c c0 : RedditCommunity.t),
         c0 ∈ tbl ->
         RedditCommunity.query c = RedditCommunity.query c0 ->
         RedditCommunity.name c = RedditCommunity.name c0 ->
         create RedditCommunity.model now c tbl = (Raises IntegrityError, tbl)).
Proof.
  intros Hreach. split.
  - intros i j c1 c2 Hi Hj Hq Hn.
    apply (reachable_unique RedditCommunity.model tbl
             RedditCommunity.query_name i j c1 c2); try done.
    + right. left.
    + unfold RedditCommunity.query_name. by rewrite Hq, Hn.
  - intros now c c0 Hin Hq Hn. unfold create.
    apply insert_rejects with (r' := c0); [done|].
    apply conflicts_true. exists RedditCommunity.query_name. split.
    + right. left.
    + unfold RedditCommunity.query_name. simpl. by rewrite Hq, Hn.
Qed.

(** C5: in every table of posts the store can reach, two rows with the same
    [post_id] are one row, whatever their communities; and creating a post
    whose [post_id] is already there is refused and adds no row. *)
Theorem post_id_dedup (tbl : list RedditPost.t) :
  reachable RedditPost.model tbl ->
  (forall (i j : nat) (p1 p2 : RedditPost.t),
      tbl !! i = Some p1 -> tbl !! j = Some p2 ->
      RedditPost.post_id p1 = RedditPost.post_id p2 ->
      i = j)
  /\ (forall (now : datetime) (p p0 : RedditPost.t),
         p0 ∈ tbl ->
         RedditPost.post_id p = RedditPost.post_id p0 ->
         create RedditPost.model now p tbl = (Raises IntegrityError, tbl)).
Proof.
  intros Hreach. split.
  - intros i j p1 p2 Hi Hj Hp.
    apply (reachable_unique RedditPost.model tbl
             RedditPost.post_id_key i j p1 p2); try done.
    + right. left.
    + unfold RedditPost.post_id_key. by rewrite Hp.
  - intros now p p0 Hin Hp. unfold create.
    apply insert_rejects with (r' := p0); [done|].
    apply conflicts_true. exists RedditPost.post_id_key. split.
    + right. left.
    + unfold RedditPost.post_id_key. simpl. by rewrite Hp.
Qed.

End DedupClaims.

Section DedupWitnesses.
Import Py Orm Models Samples.

(** Of the candidates r/python, r/python and r/golang, two are stored. *)
Example communities_stored :
  map RedditCommunity.name communities = ["r/python"; "r/golang"].
Proof. reflexivity. Qed.

(** The post scraped a second time is not stored again. *)
Example posts_stored : map RedditPost.id posts = [1%N].
Proof. reflexivity. Qed.

Lemma community_unique_per_query_witness :
  (forall (i j : nat) (c1 c2 : RedditCommunity.t),
      communities !! i = Some c1 -> communities !! j = Some c2 ->
      RedditCommunity.query c1 = RedditCommunity.query c2 ->
      RedditCommunity.name c1 = RedditCommunity.name c2 ->
      i = j)
  /\ (forall (now : datetime) (c c0 : RedditCommunity.t),
         c0 ∈ communities ->
         RedditCommunity.query c = RedditCommunity.query c0 ->
         RedditCommunity.name c = RedditCommunity.name c0 ->
         create RedditCommunity.model now c communities
         = (Raises IntegrityError, communities)).
Proof.
  apply (community_unique_per_query communities).
  apply run_reachable.
Defined.

Lemma post_id_dedup_witness :
  (forall (i j : nat) (p1 p2 : RedditPost.t),
      posts !! i = Some p1 -> posts !! j = Some p2 ->
      RedditPost.post_id p1 = RedditPost.post_id p2 ->
      i = j)
  /\ (forall (now : datetime) (p p0 : RedditPost.t),
         p0 ∈ posts ->
         RedditPost.post_id p = RedditPost.post_id p0 ->
         create RedditPost.model now p posts = (Raises IntegrityError, posts)).
Proof.
  apply (post_id_dedup posts).
  apply run_reachable.
Defined.

End DedupWitnesses.

Section PrimaryKeyOnly.
Import Py Orm.
Context {R : Type}.
Variable m : model R.

(** A model whose only constraint is its primary key. *)
Hypothesis no_unique : unique m = [].

Lemma conflicts_pk_only (r r' : R) : conflicts m r r' = same_pk m r' r.
Proof.
  unfold conflicts, unique_keys, same_pk. rewrite no_unique. simpl.
  rewrite orb_false_r. apply bool_decide_ext. split; congruence.
Qed.

Lemma update_accepts_pk_only (r : R) (tbl : list R) :
  update m r tbl
  = (Returns r, map (fun r' => if same_pk m r r' then r else r') tbl).
Proof.
  unfold update.
  replace (existsb _ tbl) with false; [done|].
  symmetry. apply existsb_false_Forall, Forall_forall. intros x _.
  rewrite conflicts_pk_only. unfold same_pk.
  destruct (decide (pk m x = pk m r)) as [Heq|Hne].
  - by rewrite (bool_decide_eq_true_2 (pk m x = pk m r)).
  - rewrite (bool_decide_eq_false_2 (pk m r = pk m x)); [apply andb_false_r | congruence].
Qed.

Lemma insert_accepts_pk_only (r : R) (tbl : list R) :
  (forall r', r' ∈ tbl -> pk m r' <> pk m r) ->
  insert m r tbl = (Returns r, tbl ++ [r]).
Proof.
  intros Hfresh. apply insert_accepts, Forall_forall. intros x Hx.
  rewrite conflicts_pk_only. unfold same_pk.
  apply bool_decide_eq_false_2. intros Heq. by apply (Hfresh x Hx).
Qed.

End PrimaryKeyOnly.

Section LifecycleClaims.
Import Py Orm Models.

(** C6, as the code has it: the Query model puts no guard on its status. A
    save that writes a status over the status of a stored Query is accepted
    and stored as written, whatever the status before, [completed] and
    [failed] included. *)
Theorem query_status_unguarded
    (tbl : list Query.t) (q : Query.t) (now : datetime) (s : string) :
  q ∈ tbl ->
  exists (q' : Query.t) (tbl' : list Query.t),
    save Query.model now (Query.set_status s q) tbl = (Returns q', tbl')
    /\ get_pk Query.model (Query.id q) tbl' = Some q'
    /\ Query.status q' = s.
Proof.
  intros Hin.
  assert (Hex : existsb (same_pk Query.model (Query.set_status s q)) tbl = true).
  { apply existsb_true_elem. exists q. split; [done|].
    unfold same_pk. by apply bool_decide_eq_true_2. }
  unfold save. rewrite Hex.
  rewrite update_accepts_pk_only by reflexivity.
  eexists _, _. split; [reflexivity|]. split; [|reflexivity].
  apply (get_pk_update Query.model
           (pre_save Query.model false now (Query.set_status s q)) tbl Hex).
Qed.

(** C7, as the code has it: the Snapshot model does not bound the Snapshots
    a community has in flight. Whenever the creation of a Snapshot without a
    status is accepted, whatever Snapshots of its community are stored, the
    new row is [pending] and is stored after the others, so that the
    community has one Snapshot more in flight than it had. *)
Theorem snapshot_create_adds_in_flight
    (tbl tbl' : list Snapshot.t) (uuid4 community : UUID) (now : datetime)
    (row : Snapshot.t) :
  create Snapshot.model now
    (Snapshot.new uuid4 community None None None None None) tbl
  = (Returns row, tbl') ->
  tbl' = tbl ++ [row]
  /\ Snapshot.community row = community
  /\ Snapshot.status row = "pending"
  /\ length (Snapshot.in_flight_of community tbl')
     = S (length (Snapshot.in_flight_of community tbl)).
Proof.
  unfold create, insert. destruct (existsb _ tbl); [discriminate|].
  intros [= <- <-]. repeat split.
  unfold Snapshot.in_flight_of. rewrite List.filter_app, length_app. simpl.
  rewrite bool_decide_eq_true_2 by done. simpl. lia.
Qed.

End LifecycleClaims.

Section TrackingClaims.
Import Py Orm Models.


(** C9, as the code has it: [scrape_frequency_hours] is an integer of either
    sign. The TrackableItem that a creation stores has the frequency it was
    given, and 24 when it was given none. *)
Theorem scrape_frequency_as_given_or_24
    (tbl tbl' : list TrackableItem.t) (uuid4 community : UUID) (user : Z)
    (now : datetime) (enabled : option bool) (last : option datetime)
    (frequency : option Z) (row : TrackableItem.t) :
  create TrackableItem.model now
    (TrackableItem.new uuid4 community user enabled last frequency) tbl
  = (Returns row, tbl') ->
  row ∈ tbl'
  /\ TrackableItem.scrape_frequency_hours row
     = match frequency with Some hours => hours | None => 24 end.
Proof.
  unfold create, insert. destruct (existsb _ tbl); [discriminate|].
  intros [= <- <-]. split.
  - apply elem_of_app. right. left.
  - by destruct frequency.
Qed.

End TrackingClaims.

(* ===================================================================== *)
(** * Where the models admit what the pipeline is meant to exclude *)
(* ===================================================================== *)

Section Counterexamples.
Import Py Orm Models Samples.

(** Against C6: a completed Query is saved with status [pending], and is
    [pending]. *)
Lemma query_terminal_status_overwritten :
  ~ (forall (tbl : list Query.t) (q q' : Query.t) (now : datetime) (s : string),
        reachable Query.model tbl ->
        q ∈ tbl ->
        Query.terminal (Query.status q) = true ->
        get_pk Query.model (Query.id q)
          (snd (save Query.model now (Query.set_status s q) tbl)) = Some q' ->
        Query.status q' = Query.status q).
Proof.
  intros H.
  specialize (H queries completed_query
                (Query.pre_save false 4 (Query.set_status "pending" completed_query))
                4 "pending").
  assert (Hqueries : queries = [completed_query]) by reflexivity.
  discriminate H.
  - apply run_reachable.
  - rewrite Hqueries. left.
  - reflexivity.
  - reflexivity.
Qed.

(** Against C7: two Snapshots of one community are created one after the
    other, and both are in flight. *)
Lemma two_snapshots_in_flight :
  ~ (forall (tbl : list Snapshot.t) (community : UUID),
        reachable Snapshot.model tbl ->
        (length (Snapshot.in_flight_of community tbl) <= 1)%nat).
Proof.
  intros H. specialize (H snapshots 1%N (run_reachable _ _)).
  vm_compute in H. lia.
Qed.


(** Against C9: a TrackableItem is created with a frequency of -3 hours and
    stored. *)
Lemma scrape_frequency_not_positive :
  ~ (forall (tbl : list TrackableItem.t) (i : TrackableItem.t),
        reachable TrackableItem.model tbl ->
        i ∈ tbl ->
        0 < TrackableItem.scrape_frequency_hours i).
Proof.
  intros H.
  assert (Hin : TrackableItem.pre_save true 50
                  (TrackableItem.new 1%N 1%N 1 None None (Some (-3)))
                ∈ tracked_backwards) by left.
  specialize (H _ _ (run_reachable _ _) Hin). simpl in H. lia.
Qed.

End Counterexamples.

Section ModelWitnesses.
Import Py Orm Models Samples.

Lemma query_status_unguarded_witness :
  exists (q' : Query.t) (tbl' : list Query.t),
    save Query.model 4 (Query.set_status "pending" completed_query) queries
    = (Returns q', tbl')
    /\ get_pk Query.model (Query.id completed_query) tbl' = Some q'
    /\ Query.status q' = "pending".
Proof.
  apply (query_status_unguarded queries completed_query 4 "pending").
  left.
Defined.

Lemma snapshot_create_adds_in_flight_witness :
  create Snapshot.model 42 (Snapshot.new 3%N 1%N None None None None None) snapshots
  = (Returns third_snapshot, snapshots ++ [third_snapshot])
  /\ (snapshots ++ [third_snapshot] = snapshots ++ [third_snapshot]
      /\ Snapshot.community third_snapshot = 1%N
      /\ Snapshot.status third_snapshot = "pending"
      /\ length (Snapshot.in_flight_of 1%N (snapshots ++ [third_snapshot]))
         = S (length (Snapshot.in_flight_of 1%N snapshots))).
Proof.
  split; [reflexivity|].
  apply (snapshot_create_adds_in_flight snapshots (snapshots ++ [third_snapshot])
           3%N 1%N 42 third_snapshot).
  reflexivity.
Defined.

Lemma scrape_frequency_as_given_or_24_witness :
  TrackableItem.pre_save true 50 (TrackableItem.new 1%N 1%N 1 None None None)
  ∈ tracked
  /\ TrackableItem.scrape_frequency_hours
       (TrackableItem.pre_save true 50 (TrackableItem.new 1%N 1%N 1 None None None))
     = 24.
Proof.
  apply (scrape_frequency_as_given_or_24 [] tracked 1%N 1%N 1 50 None None None).
  reflexivity.
Defined.


End ModelWitnesses.

(* ===================================================================== *)
(** * More on the services *)
(* ===================================================================== *)

Section StringFacts.
Import Py.

Lemma not_set_spec (v : option string) :
  not_set v = true <-> v = None \/ v = Some "".
Proof.
  destruct v as [[|c s]|]; simpl; split; intros H; try done; auto.
  - destruct H as [H|H]; discriminate.
Qed.

Lemma split_length (sep : ascii) (s : string) :
  length (split sep s) = S (count sep s).
Proof.
  induction s as [|c s IH]; simpl; [done|].
  destruct (Ascii.eqb c sep); simpl; [by rewrite IH|].
  destruct (split sep s); simpl in *; [done | lia].
Qed.

Lemma split_no_sep (sep : ascii) (s piece : string) :
  piece ∈ split sep s -> count sep piece = 0%nat.
Proof.
  revert piece. induction s as [|c s IH]; simpl; intros piece Hin.
  - apply list_elem_of_singleton in Hin as ->. done.
  - destruct (Ascii.eqb c sep) eqn:Hc.
    + apply elem_of_cons in Hin as [-> | Hin]; [done | by apply IH].
    + destruct (split sep s) as [|p rest].
      * apply list_elem_of_singleton in Hin as ->. simpl. by rewrite Hc.
      * apply elem_of_cons in Hin as [-> | Hin].
        -- simpl. rewrite Hc. apply IH. left.
        -- apply IH. by right.
Qed.

Lemma count_lstrip (c : ascii) (s : string) : (count c (lstrip s) <= count c s)%nat.
Proof.
  induction s as [|c' s IH]; simpl; [done|].
  destruct (isspace c'); simpl; [|done].
  destruct (Ascii.eqb c' c); lia.
Qed.

Lemma count_rstrip (c : ascii) (s : string) : (count c (rstrip s) <= count c s)%nat.
Proof.
  induction s as [|c' s IH]; simpl; [done|].
  destruct (rstrip s) as [|c'' r] eqn:Hr.
  - destruct (isspace c'); simpl; destruct (Ascii.eqb c' c); simpl in *; lia.
  - change (count c (String c' (String c'' r)))
      with (if Ascii.eqb c' c then S (count c (String c'' r))
            else count c (String c'' r)).
    destruct (Ascii.eqb c' c); lia.
Qed.

Lemma count_strip (c : ascii) (s : string) : (count c (strip s) <= count c s)%nat.
Proof.
  unfold strip. etrans; [apply count_rstrip | apply count_lstrip].
Qed.

Lemma lstrip_idemp (s : string) : lstrip (lstrip s) = lstrip s.
Proof.
  induction s as [|c s IH]; simpl; [done|].
  destruct (isspace c) eqn:Hc; [done|]. simpl. by rewrite Hc.
Qed.

Lemma rstrip_idemp (s : string) : rstrip (rstrip s) = rstrip s.
Proof.
  induction s as [|c s IH]; simpl; [done|].
  destruct (rstrip s) as [|c' r] eqn:Hr.
  - destruct (isspace c) eqn:Hc; simpl; [done | by rewrite Hc].
  - change (rstrip (String c (String c' r)))
      with (match rstrip (String c' r) with
            | EmptyString => if isspace c then EmptyString else String c EmptyString
            | r' => String c r'
            end).
    by rewrite IH.
Qed.

(** Stripping on the right leaves a first character that is no space in
    place. *)
Lemma lstrip_rstrip_lstrip (s : string) : lstrip (rstrip (lstrip s)) = rstrip (lstrip s).
Proof.
  induction s as [|c s IH]; cbn [lstrip]; [done|].
  destruct (isspace c) eqn:Hc; [done|].
  cbn [rstrip]. destruct (rstrip s) as [|c' r]; [rewrite Hc|]; cbn [lstrip];
    by rewrite Hc.
Qed.

Lemma strip_idemp (s : string) : strip (strip s) = strip s.
Proof.
  unfold strip. by rewrite lstrip_rstrip_lstrip, rstrip_idemp.
Qed.

End StringFacts.

Section EnvironmentFacts.
Import Py Services.

(** [LLMService()] takes its key from the environment: it is built, for the
    model [gemini-pro], when [GOOGLE_GENAI_API_KEY] is set to a string that is
    not empty, and raises [ValueError] when the variable is unset or empty. *)
Theorem LLMService_init_needs_key (environ : gmap string string) :
  (forall key : string,
      environ !! "GOOGLE_GENAI_API_KEY" = Some key -> key <> "" ->
      LLMService_init environ
      = Returns {| genai_api_key := key; model_name := "gemini-pro" |})
  /\ (environ !! "GOOGLE_GENAI_API_KEY" = None
      \/ environ !! "GOOGLE_GENAI_API_KEY" = Some "" ->
      LLMService_init environ
      = Raises (ValueError "GOOGLE_GENAI_API_KEY environment variable not set")).
Proof.
  unfold LLMService_init, getenv. split.
  - intros key Hkey Hne. rewrite Hkey.
    destruct (not_set (Some key)) eqn:E; [|done].
    apply not_set_spec in E as [E|E]; congruence.
  - intros H. by rewrite (proj2 (not_set_spec _) H).
Qed.

(** [get_serp_config()] gives a configuration of exactly six entries, the
    key being the value of [BRIGHT_DATA_SER_API_KEY] and [parse] being on,
    when that variable is set to a string that is not empty; it raises
    [ValueError] when the variable is unset or empty. *)
Theorem get_serp_config_needs_key (environ : gmap string string) :
  (forall key : string,
      environ !! "BRIGHT_DATA_SER_API_KEY" = Some key -> key <> "" ->
      exists config : gmap string value,
        get_serp_config environ = Returns config
        /\ dom config
           = list_to_set
               ["provider"; "api_key"; "search_engine"; "country"; "language";
                "parse"]
        /\ config !! "api_key" = Some (Str key)
        /\ config !! "provider" = Some (Str "bright_data")
        /\ config !! "parse" = Some (Bool true))
  /\ (environ !! "BRIGHT_DATA_SER_API_KEY" = None
      \/ environ !! "BRIGHT_DATA_SER_API_KEY" = Some "" ->
      get_serp_config environ
      = Raises (ValueError "BRIGHT_DATA_SER_API_KEY environment variable not set")).
Proof.
  unfold get_serp_config, getenv. split.
  - intros key Hkey Hne. rewrite Hkey.
    destruct (not_set (Some key)) eqn:E.
    { apply not_set_spec in E as [E|E]; congruence. }
    eexists. split; [reflexivity|]. split.
    + rewrite dom_list_to_map_L. reflexivity.
    + repeat split; cbn [list_to_map foldr uncurry fst snd];
        by simplify_map_eq.
  - intros H. by rewrite (proj2 (not_set_spec _) H).
Qed.

End EnvironmentFacts.

Section TopicFacts.
Import Py Services.

Variable response : Type.
Variable generate_content : string -> outcome response.
Variable text : response -> outcome string.
Variable float_of_str : string -> outcome spec_float.

Local Abbreviation provider := (provider_text response generate_content text).
Local Abbreviation extract := (extract_topics response generate_content text).
Local Abbreviation score :=
  (score_community_relevance response generate_content text float_of_str).


(** When the provider answers, [extract_topics] returns one topic more than
    the answer has commas, the empty answer giving one empty topic; no topic
    holds a comma, and none begins or ends in white space, so stripping it
    again changes nothing; the logger is not written to. *)
Theorem extract_topics_on_answer (query_text answer : string) (l : log) :
  provider (extract_topics_prompt query_text) = Returns answer ->
  exists topics : list string,
    extract query_text l = (Returns topics, l)
    /\ length topics = S (count "," answer)
    /\ (forall t : string, t ∈ topics -> strip t = t /\ count "," t = 0%nat).
Proof.
  intros Hp. rewrite extract_topics_unfold, Hp.
  eexists. split; [reflexivity|]. split.
  - by rewrite length_map, split_length.
  - intros t (piece & -> & Hpiece)%list_elem_of_fmap. split.
    + apply strip_idemp.
    + pose proof (count_strip "," piece) as Hle.
      rewrite (split_no_sep _ _ _ Hpiece) in Hle. lia.
Qed.

(** When the provider's answer reads as the float [f], the score is the int 0
    for [f] below 0, the int 1 for [f] above 1, and [f] itself for [f] from
    0 to 1; the logger is not written to. *)
Theorem score_clamp_cases
    (name desc : string) (topics : list string) (l : log)
    (answer : string) (f : spec_float) :
  provider (score_community_relevance_prompt name desc (join ", " topics))
  = Returns answer ->
  float_of_str (strip answer) = Returns f ->
  exists n : number,
    score name desc topics l = (Returns n, l)
    /\ (lt (Float f) (Int 0) = true -> n = Int 0)
    /\ (gt (Float f) (Int 1) = true -> n = Int 1)
    /\ (le (Int 0) (Float f) = true -> le (Float f) (Int 1) = true -> n = Float f).
Proof.
  intros Hp Hf. rewrite score_unfold, Hp, Hf.
  eexists. split; [reflexivity|].
  unfold min, max, lt, gt, le. cbn [number_compare].
  destruct f as [s|s| |s m e].
  - cbn. by repeat split.
  - destruct s; cbn; by repeat split.
  - cbn. by repeat split.
  - cbn [Z_compare_float option_map].
    destruct (0 <=? e) eqn:He.
    + destruct (0 ?= (if s then Z.neg m else Z.pos m) * 2 ^ e) eqn:E0;
        cbn [CompOpp number_compare Z_compare_float option_map]; rewrite ?He;
        destruct (1 ?= (if s then Z.neg m else Z.pos m) * 2 ^ e) eqn:E1;
        cbn; repeat split; try done; exfalso;
        rewrite ?Z.compare_eq_iff, ?Z.compare_lt_iff, ?Z.compare_gt_iff in *; lia.
    + destruct (0 * 2 ^ (- e) ?= (if s then Z.neg m else Z.pos m)) eqn:E0;
        cbn [CompOpp number_compare Z_compare_float option_map]; rewrite ?He;
        destruct (1 * 2 ^ (- e) ?= (if s then Z.neg m else Z.pos m)) eqn:E1;
        cbn; repeat split; try done; exfalso;
        assert (0 < 2 ^ (- e)) by (apply Z.pow_pos_nonneg; lia);
        rewrite ?Z.compare_eq_iff, ?Z.compare_lt_iff, ?Z.compare_gt_iff in *; lia.
Qed.

End TopicFacts.

Section PostFacts.
Import Py Services.

(** [parse_reddit_post] reads the seven keys [id], [title], [selftext],
    [author], [score], [num_comments] and [url] and nothing else: two inputs
    that agree on these are parsed alike, whatever else they hold. *)
Theorem parse_reddit_post_reads_seven_keys (d d' : gmap string value) :
  (forall key : string,
      key ∈ ["id"; "title"; "selftext"; "author"; "score"; "num_comments"; "url"] ->
      d !! key = d' !! key) ->
  parse_reddit_post d = parse_reddit_post d'.
Proof.
  intros Hagree. unfold parse_reddit_post, get.
  rewrite !Hagree; [done|..]; set_solver.
Qed.

Lemma parsed_id_and_title (d : gmap string value) :
  parse_reddit_post d !! "post_id" = Some (default None_ (d !! "id"))
  /\ parse_reddit_post d !! "title" = Some (default None_ (d !! "title")).
Proof.
  unfold parse_reddit_post, get.
  split; cbn [list_to_map foldr uncurry fst snd]; simplify_map_eq;
    by destruct (d !! _).
Qed.

Lemma truthy_get (d : gmap string value) (key : string) :
  truthy (get d key None_) = true
  <-> exists v : value, d !! key = Some v /\ truthy v = true.
Proof.
  unfold get. destruct (d !! key) as [v|]; simpl.
  - split; [eauto | by intros (v' & [= <-] & H)].
  - split; [done | by intros (v' & H & _)].
Qed.

(** [validate_post_data] accepts a dictionary exactly when it holds both
    [post_id] and [title] with true values: a missing key, [None], an empty
    string or a zero under either of them makes it answer [False]. *)
Theorem validate_post_data_spec (d : gmap string value) :
  validate_post_data d = true
  <-> (exists v : value, d !! "post_id" = Some v /\ truthy v = true)
      /\ (exists v : value, d !! "title" = Some v /\ truthy v = true).
Proof.
  unfold validate_post_data. cbn [forallb].
  rewrite andb_true_r, andb_true_iff, !truthy_get. done.
Qed.

(** Validation after parsing looks at the raw post's [id] and [title]: the
    parsed post is accepted exactly when the raw one holds both with true
    values. *)
Theorem validate_parsed_post (d : gmap string value) :
  validate_post_data (parse_reddit_post d) = true
  <-> (exists v : value, d !! "id" = Some v /\ truthy v = true)
      /\ (exists v : value, d !! "title" = Some v /\ truthy v = true).
Proof.
  rewrite validate_post_data_spec.
  destruct (parsed_id_and_title d) as [Hid Htitle].
  rewrite Hid, Htitle. clear.
  assert (Hopt : forall o : option value,
             (exists v, Some (default None_ o) = Some v /\ truthy v = true)
             <-> (exists v, o = Some v /\ truthy v = true)).
  { intros [v|]; simpl.
    - split; intros (v' & [= <-] & H); eauto.
    - split; [by intros (v' & [= <-] & H) | by intros (v' & H & _)]. }
  by rewrite !Hopt.
Qed.

End PostFacts.

Section ScheduleFacts.
Import Py Services.

Variable async_result : Type.
Variable apply_async : list string -> option Z -> outcome async_result.
Variable str_id : async_result -> string.

Local Abbreviation schedule :=
  (schedule_scraping_task async_result (Returns apply_async) str_id).

(** [schedule_scraping_task] hands the queue the community as the only
    argument. A delay of one minute or more becomes a countdown of sixty
    times as many seconds; a delay of zero or less is no error and no
    countdown, the task being queued as with no delay. Nothing is caught: an
    exception of the queue, or of the import of the task, is the caller's. *)
Theorem schedule_scraping_task_delay (community_id : string) (delay_minutes : Z) :
  (0 < delay_minutes ->
   schedule community_id delay_minutes
   = match apply_async [community_id] (Some (60 * delay_minutes)) with
     | Returns t => Returns (str_id t)
     | Raises e => Raises e
     | RaisesBase b => RaisesBase b
     end)
  /\ (delay_minutes <= 0 ->
      schedule community_id delay_minutes = schedule community_id 0
      /\ schedule community_id delay_minutes
         = match apply_async [community_id] None with
           | Returns t => Returns (str_id t)
           | Raises e => Raises e
           | RaisesBase b => RaisesBase b
           end)
  /\ (forall e : exn,
         schedule_scraping_task async_result (Raises e) str_id
           community_id delay_minutes
         = Raises e
         /\ schedule_scraping_task async_result (RaisesBase e) str_id
              community_id delay_minutes
            = RaisesBase e).
Proof.
  unfold schedule_scraping_task. split; [|split].
  - intros Hpos. rewrite (proj2 (Z.ltb_lt 0 delay_minutes) Hpos).
    by rewrite (Z.mul_comm 60).
  - intros Hnon. by rewrite (proj2 (Z.ltb_ge 0 delay_minutes) Hnon).
  - done.
Qed.

End ScheduleFacts.

(* ===================================================================== *)
(** * More on the store *)
(* ===================================================================== *)

Section WriteFacts.
Import Py Orm.
Context {R : Type}.
Variable m : model R.

Lemma conflicts_false (r r' : R) :
  conflicts m r r' = false <-> forall k, k ∈ unique_keys m -> k r <> k r'.
Proof.
  split.
  - intros Hc k Hk Heq.
    assert (conflicts m r r' = true) by (apply conflicts_true; eauto).
    congruence.
  - intros Hk. destruct (conflicts m r r') eqn:E; [|done].
    apply conflicts_true in E as (k & Hin & Heq). by destruct (Hk k Hin).
Qed.

(** An insert is accepted or refused, and accepted exactly when no stored row
    agrees with the new one on a constraint. *)
Lemma insert_accepted_iff (r : R) (tbl : list R) :
  (insert m r tbl = (Returns r, tbl ++ [r])
   \/ insert m r tbl = (Raises IntegrityError, tbl))
  /\ (insert m r tbl = (Returns r, tbl ++ [r])
      <-> forall r', r' ∈ tbl -> forall k, k ∈ unique_keys m -> k r <> k r').
Proof.
  unfold insert. destruct (existsb (conflicts m r) tbl) eqn:E.
  - split; [by right|]. split; [discriminate|].
    intros Hno. apply existsb_true_elem in E as (r' & Hin & Hc).
    apply conflicts_true in Hc as (k & Hk & Heq). by destruct (Hno r' Hin k Hk).
  - split; [by left|]. split; [|done]. intros _ r' Hin.
    apply conflicts_false.
    apply existsb_false_Forall in E.
    exact (proj1 (Forall_forall _ _) E r' Hin).
Qed.

Lemma get_pk_app_other (id : UUID) (tbl : list R) (r : R) :
  pk m r <> id -> get_pk m id (tbl ++ [r]) = get_pk m id tbl.
Proof.
  intros Hne. unfold get_pk. induction tbl as [|r0 tbl IH]; simpl.
  - by rewrite bool_decide_eq_false_2.
  - by destruct (bool_decide (pk m r0 = id)).
Qed.

Lemma get_pk_app_new (tbl : list R) (r : R) :
  Forall (fun r' => conflicts m r r' = false) tbl ->
  get_pk m (pk m r) (tbl ++ [r]) = Some r.
Proof.
  unfold get_pk. induction 1 as [|r0 tbl Hr0 _ IH]; simpl.
  - by rewrite bool_decide_eq_true_2.
  - rewrite bool_decide_eq_false_2; [done|].
    intros Heq. rewrite conflicts_same_pk in Hr0; done.
Qed.

Lemma get_pk_update_other (id : UUID) (r : R) (tbl : list R) :
  pk m r <> id ->
  get_pk m id (map (fun r' => if same_pk m r r' then r else r') tbl)
  = get_pk m id tbl.
Proof.
  intros Hne. unfold get_pk. induction tbl as [|r0 tbl IH]; simpl; [done|].
  destruct (same_pk m r r0) eqn:Hpk.
  - unfold same_pk in Hpk. apply bool_decide_eq_true in Hpk.
    rewrite !bool_decide_eq_false_2; [done | congruence | done].
  - by rewrite IH.
Qed.

(** In a table the store can reach, the primary key tells rows apart. *)
Theorem reachable_pk_unique (tbl : list R) (i j : nat) (r r' : R) :
  reachable m tbl ->
  tbl !! i = Some r -> tbl !! j = Some r' ->
  pk m r = pk m r' ->
  i = j.
Proof.
  intros Hreach Hi Hj Hpk.
  apply (reachable_unique m tbl (fun r => KUuid (pk m r)) i j r r'); try done.
  - left.
  - by rewrite Hpk.
Qed.

(** A row that was created is found again under its primary key, as it was
    stored. *)
Theorem create_then_get_pk (now : datetime) (r row : R) (tbl tbl' : list R) :
  create m now r tbl = (Returns row, tbl') ->
  get_pk m (pk m row) tbl' = Some row.
Proof.
  unfold create, insert.
  destruct (existsb _ tbl) eqn:E; [discriminate|]. intros [= <- <-].
  apply get_pk_app_new. by apply existsb_false_Forall.
Qed.

(** A deleted row is found no more; every other row is found as before. *)
Theorem delete_then_get_pk (id : UUID) (tbl : list R) :
  get_pk m id (delete m id tbl) = None
  /\ (forall id' : UUID,
         id' <> id -> get_pk m id' (delete m id tbl) = get_pk m id' tbl).
Proof.
  unfold get_pk, delete. split.
  - induction tbl as [|r0 tbl IH]; [done|].
    rewrite filter_cons. case_decide as Hd; simpl; [|done].
    by rewrite bool_decide_eq_false_2.
  - intros id' Hne. induction tbl as [|r0 tbl IH]; [done|].
    rewrite filter_cons. case_decide as Hd; simpl.
    + by rewrite IH.
    + rewrite IH. rewrite bool_decide_eq_false_2; [done | congruence].
Qed.

(** A create or a save touches one row: when it raises the table is as
    before, and when it returns a row, every row with another primary key is
    found as before. *)
Theorem write_touches_one_row
    (now : datetime) (r : R) (tbl tbl' : list R) (result : outcome R) :
  create m now r tbl = (result, tbl') \/ save m now r tbl = (result, tbl') ->
  match result with
  | Raises _ | RaisesBase _ => tbl' = tbl
  | Returns row =>
      forall id' : UUID, id' <> pk m row -> get_pk m id' tbl' = get_pk m id' tbl
  end.
Proof.
  assert (Hins : forall r0 : R,
             insert m r0 tbl = (result, tbl') ->
             match result with
             | Raises _ | RaisesBase _ => tbl' = tbl
             | Returns row =>
                 forall id', id' <> pk m row -> get_pk m id' tbl' = get_pk m id' tbl
             end).
  { intros r0. unfold insert. destruct (existsb _ tbl); intros [= <- <-]; [done|].
    intros id' Hne. by apply get_pk_app_other. }
  intros [Hc | Hs].
  - by apply (Hins (pre_save m true now r)).
  - unfold save in Hs. destruct (existsb (same_pk m r) tbl).
    + unfold update in Hs. destruct (existsb _ tbl); injection Hs as <- <-; [done|].
      intros id' Hne. by apply get_pk_update_other.
    + by apply (Hins (pre_save m true now r)).
Qed.

End WriteFacts.

(* ===================================================================== *)
(** * More on the models *)
(* ===================================================================== *)

Section AcceptanceFacts.
Import Py Orm Models.

(** A community is created only if no stored community has its id, and
    none has both its query and its name; the table then gains the created
    row, stamped with the time, after the others. A creation for which a
    stored community has the id, or the query and the name, raises
    [IntegrityError] and leaves the table as it was. *)
Theorem community_create_accepted_only_if
    (tbl : list RedditCommunity.t) (now : datetime) (c : RedditCommunity.t) :
  (forall (row : RedditCommunity.t) (tbl' : list RedditCommunity.t),
      create RedditCommunity.model now c tbl = (Returns row, tbl') ->
      row = RedditCommunity.pre_save true now c
      /\ tbl' = tbl ++ [row]
      /\ forall c0 : RedditCommunity.t,
           c0 ∈ tbl ->
           RedditCommunity.id c0 <> RedditCommunity.id c
           /\ (RedditCommunity.query c0 <> RedditCommunity.query c
               \/ RedditCommunity.name c0 <> RedditCommunity.name c))
  /\ (forall c0 : RedditCommunity.t,
         c0 ∈ tbl ->
         RedditCommunity.id c0 = RedditCommunity.id c
         \/ (RedditCommunity.query c0 = RedditCommunity.query c
             /\ RedditCommunity.name c0 = RedditCommunity.name c) ->
         create RedditCommunity.model now c tbl = (Raises IntegrityError, tbl)).
Proof.
  unfold create.
  destruct (insert_accepted_iff RedditCommunity.model
              (pre_save RedditCommunity.model true now c) tbl) as [Hdich Hiff].
  split.
  - intros row tbl' Hcreate.
    destruct Hdich as [Hacc | Hrej]; [|congruence].
    rewrite Hacc in Hcreate. injection Hcreate as <- <-.
    split; [done|]. split; [done|].
    intros c0 Hin. pose proof (proj1 Hiff Hacc c0 Hin) as Hk. split.
    + intros Heq. apply (Hk (fun r => KUuid (RedditCommunity.id r))); [left|].
      simpl. by rewrite Heq.
    + destruct (decide (RedditCommunity.query c0 = RedditCommunity.query c)) as [Hq|Hq];
        [|by left].
      right. intros Hn.
      apply (Hk RedditCommunity.query_name); [right; left|].
      unfold RedditCommunity.query_name. simpl. by rewrite Hq, Hn.
  - intros c0 Hin Hclash.
    apply insert_rejects with (r' := c0); [done|].
    apply conflicts_true. destruct Hclash as [Hid | [Hq Hn]].
    + exists (fun r => KUuid (RedditCommunity.id r)). split; [left|].
      simpl. by rewrite Hid.
    + exists RedditCommunity.query_name. split; [right; left|].
      unfold RedditCommunity.query_name. simpl. by rewrite Hq, Hn.
Qed.

(** A post is created only if no stored post has its id or its [post_id],
    whichever communities the stored posts belong to; the table then gains
    the created row, stamped with the time, after the others. A creation for
    which a stored post has the id or the [post_id] raises [IntegrityError]
    and leaves the table as it was. *)
Theorem post_create_accepted_only_if
    (tbl : list RedditPost.t) (now : datetime) (p : RedditPost.t) :
  (forall (row : RedditPost.t) (tbl' : list RedditPost.t),
      create RedditPost.model now p tbl = (Returns row, tbl') ->
      row = RedditPost.pre_save true now p
      /\ tbl' = tbl ++ [row]
      /\ forall p0 : RedditPost.t,
           p0 ∈ tbl ->
           RedditPost.id p0 <> RedditPost.id p
           /\ RedditPost.post_id p0 <> RedditPost.post_id p)
  /\ (forall p0 : RedditPost.t,
         p0 ∈ tbl ->
         RedditPost.id p0 = RedditPost.id p
         \/ RedditPost.post_id p0 = RedditPost.post_id p ->
         create RedditPost.model now p tbl = (Raises IntegrityError, tbl)).
Proof.
  unfold create.
  destruct (insert_accepted_iff RedditPost.model
              (pre_save RedditPost.model true now p) tbl) as [Hdich Hiff].
  split.
  - intros row tbl' Hcreate.
    destruct Hdich as [Hacc | Hrej]; [|congruence].
    rewrite Hacc in Hcreate. injection Hcreate as <- <-.
    split; [done|]. split; [done|].
    intros p0 Hin. pose proof (proj1 Hiff Hacc p0 Hin) as Hk. split.
    + intros Heq. apply (Hk (fun r => KUuid (RedditPost.id r))); [left|].
      simpl. by rewrite Heq.
    + intros Heq. apply (Hk RedditPost.post_id_key); [right; left|].
      unfold RedditPost.post_id_key. simpl. by rewrite Heq.
  - intros p0 Hin Hclash.
    apply insert_rejects with (r' := p0); [done|].
    apply conflicts_true. destruct Hclash as [Hid | Hpid].
    + exists (fun r => KUuid (RedditPost.id r)). split; [left|].
      simpl. by rewrite Hid.
    + exists RedditPost.post_id_key. split; [right; left|].
      unfold RedditPost.post_id_key. simpl. by rewrite Hpid.
Qed.

(** In every table of tracking records the store can reach, a community has
    at most one record, whoever its user is. *)
Theorem tracked_once_per_community
    (tbl : list TrackableItem.t) (i j : nat) (t1 t2 : TrackableItem.t) :
  reachable TrackableItem.model tbl ->
  tbl !! i = Some t1 -> tbl !! j = Some t2 ->
  TrackableItem.community t1 = TrackableItem.community t2 ->
  i = j.
Proof.
  intros Hreach Hi Hj Hc.
  apply (reachable_unique TrackableItem.model tbl
           TrackableItem.community_key i j t1 t2); try done.
  - right. left.
  - unfold TrackableItem.community_key. by rewrite Hc.
Qed.

(** In every table of task logs the store can reach, a [task_id] names one
    row; logging a task under a [task_id] already stored is refused and adds
    no row. *)
Theorem task_id_dedup (tbl : list TaskLog.t) :
  reachable TaskLog.model tbl ->
  (forall (i j : nat) (l1 l2 : TaskLog.t),
      tbl !! i = Some l1 -> tbl !! j = Some l2 ->
      TaskLog.task_id l1 = TaskLog.task_id l2 ->
      i = j)
  /\ (forall (now : datetime) (l l0 : TaskLog.t),
         l0 ∈ tbl ->
         TaskLog.task_id l = TaskLog.task_id l0 ->
         create TaskLog.model now l tbl = (Raises IntegrityError, tbl)).
Proof.
  intros Hreach. split.
  - intros i j l1 l2 Hi Hj Hp.
    apply (reachable_unique TaskLog.model tbl TaskLog.task_id_key i j l1 l2);
      try done.
    + right. left.
    + unfold TaskLog.task_id_key. by rewrite Hp.
  - intros now l l0 Hin Hp. unfold create.
    apply insert_rejects with (r' := l0); [done|].
    apply conflicts_true. exists TaskLog.task_id_key. split.
    + right. left.
    + unfold TaskLog.task_id_key. simpl. by rewrite Hp.
Qed.

End AcceptanceFacts.

Section TimestampFacts.
Import Py Orm Models.

(** A Query that is created is stamped with the time of its creation as
    [created_at] and as [updated_at]. Saving a stored Query again is always
    accepted; it keeps [created_at] and moves [updated_at] to the time of the
    save, and the stored row is the saved one. *)
Theorem query_timestamps (tbl : list Query.t) (q : Query.t) (now : datetime) :
  (forall (row : Query.t) (tbl' : list Query.t),
      create Query.model now q tbl = (Returns row, tbl') ->
      Query.created_at row = Some now /\ Query.updated_at row = Some now)
  /\ (q ∈ tbl ->
      exists (row : Query.t) (tbl' : list Query.t),
        save Query.model now q tbl = (Returns row, tbl')
        /\ get_pk Query.model (Query.id q) tbl' = Some row
        /\ length tbl' = length tbl
        /\ Query.created_at row = Query.created_at q
        /\ Query.updated_at row = Some now).
Proof.
  split.
  - intros row tbl'. unfold create, insert.
    destruct (existsb _ tbl); [discriminate|]. by intros [= <- <-].
  - intros Hin.
    assert (Hex : existsb (same_pk Query.model q) tbl = true).
    { apply existsb_true_elem. exists q. split; [done|].
      unfold same_pk. by apply bool_decide_eq_true_2. }
    unfold save. rewrite Hex.
    rewrite update_accepts_pk_only by reflexivity.
    eexists _, _. split; [reflexivity|]. split; [|split; [|done]].
    + apply (get_pk_update Query.model (pre_save Query.model false now q) tbl Hex).
    + apply length_map.
Qed.

End TimestampFacts.

Section SerializerFacts.
Import Py Orm Models Serializers.

(** The [posts_count] a community is serialized with follows the posts
    table: a post that is created adds one to the count of its community and
    leaves every other count alone, and a post that is refused changes no
    count. *)
Theorem posts_count_after_create
    (posts posts' : list RedditPost.t) (now : datetime) (p : RedditPost.t)
    (result : outcome RedditPost.t) (obj : RedditCommunity.t) :
  create RedditPost.model now p posts = (result, posts') ->
  get_posts_count posts' obj
  = match result with
    | Returns _ =>
        if bool_decide (RedditPost.community p = RedditCommunity.id obj)
        then S (get_posts_count posts obj)
        else get_posts_count posts obj
    | Raises _ | RaisesBase _ => get_posts_count posts obj
    end.
Proof.
  unfold create, insert. destruct (existsb _ posts); intros [= <- <-]; [done|].
  unfold get_posts_count. rewrite List.filter_app, length_app. simpl.
  destruct (bool_decide _); simpl; lia.
Qed.

End SerializerFacts.

Section StrFacts.
Import Py Orm Models.

Lemma string_length_app (a b : string) :
  String.length (a +:+ b) = (String.length a + String.length b)%nat.
Proof. induction a as [|c a IH]; simpl; [done | by rewrite IH]. Qed.

Lemma slice_to_length (n : nat) (s : string) :
  (String.length (slice_to n s) <= n)%nat.
Proof.
  revert s. induction n as [|n IH]; intros [|c s]; simpl; try lia.
  specialize (IH s). lia.
Qed.

Lemma slice_to_short (n : nat) (s : string) :
  (String.length s <= n)%nat -> slice_to n s = s.
Proof.
  revert s. induction n as [|n IH]; intros [|c s]; simpl; try done; try lia.
  intros H. rewrite IH; [done | lia].
Qed.

(** The text a Query is shown as is the user's name, a dash and the search
    text cut to fifty characters: it never exceeds the name by more than 53
    characters, and shows a search text of fifty characters or fewer in
    full. *)
Theorem Query__str__bounded (username : string) (self : Query.t) :
  (String.length (Query__str__ username self) <= String.length username + 53)%nat
  /\ ((String.length (Query.search_text self) <= 50)%nat ->
      Query__str__ username self = username +:+ " - " +:+ Query.search_text self).
Proof.
  unfold Query__str__. split.
  - rewrite !string_length_app.
    pose proof (slice_to_length 50 (Query.search_text self)) as Hcut.
    revert Hcut. generalize (slice_to 50 (Query.search_text self)).
    intros cut Hcut. change (String.length " - ") with 3%nat. lia.
  - intros H. by rewrite slice_to_short.
Qed.

End StrFacts.

Section MoreWitnesses.
Import Py Services Orm Models Serializers Samples.

Lemma extract_topics_on_answer_witness :
  exists topics : list string,
    extract_topics string (answering " python, coding ,web dev") text_of
      "best programming communities" []
    = (Returns topics, [])
    /\ length topics = S (count "," " python, coding ,web dev")
    /\ (forall t : string, t ∈ topics -> strip t = t /\ count "," t = 0%nat).
Proof.
  apply (extract_topics_on_answer string (answering " python, coding ,web dev")
           text_of "best programming communities" " python, coding ,web dev" []).
  reflexivity.
Defined.

Lemma score_clamp_cases_witness :
  exists n : number,
    score_community_relevance string (answering " 0.5 ") text_of float_of_example
      "r/python" "News about the Python language" ["programming"; "coding"] []
    = (Returns n, [])
    /\ (lt (Float half) (Int 0) = true -> n = Int 0)
    /\ (gt (Float half) (Int 1) = true -> n = Int 1)
    /\ (le (Int 0) (Float half) = true -> le (Float half) (Int 1) = true ->
        n = Float half).
Proof.
  apply (score_clamp_cases string (answering " 0.5 ") text_of float_of_example
           "r/python" "News about the Python language" ["programming"; "coding"] []
           " 0.5 " half); reflexivity.
Defined.

Lemma parse_reddit_post_reads_seven_keys_witness :
  parse_reddit_post raw_post = parse_reddit_post raw_post_dated.
Proof.
  apply (parse_reddit_post_reads_seven_keys raw_post raw_post_dated).
  intros key Hkey. unfold raw_post_dated.
  rewrite lookup_insert_ne; [done|].
  intros <-. vm_compute in Hkey.
  repeat (apply elem_of_cons in Hkey as [Hkey | Hkey]; [discriminate|]).
  by apply elem_of_nil in Hkey.
Defined.

Lemma reachable_pk_unique_witness :
  communities !! 1%nat = Some (RedditCommunity.pre_save true 12 golang_community)
  /\ 1%nat = 1%nat.
Proof.
  split; [reflexivity|].
  apply (reachable_pk_unique RedditCommunity.model communities 1 1
           (RedditCommunity.pre_save true 12 golang_community)
           (RedditCommunity.pre_save true 12 golang_community)).
  - apply run_reachable.
  - reflexivity.
  - reflexivity.
  - reflexivity.
Defined.

Lemma create_then_get_pk_witness :
  get_pk RedditCommunity.model 4%N
    (communities ++ [RedditCommunity.pre_save true 13 python_elsewhere])
  = Some (RedditCommunity.pre_save true 13 python_elsewhere).
Proof.
  apply (create_then_get_pk RedditCommunity.model 13 python_elsewhere
           (RedditCommunity.pre_save true 13 python_elsewhere) communities).
  reflexivity.
Defined.

Lemma write_touches_one_row_witness :
  create RedditCommunity.model 13 python_elsewhere communities
  = (Returns (RedditCommunity.pre_save true 13 python_elsewhere),
     communities ++ [RedditCommunity.pre_save true 13 python_elsewhere])
  /\ forall id' : UUID,
       id' <> 4%N ->
       get_pk RedditCommunity.model id'
         (communities ++ [RedditCommunity.pre_save true 13 python_elsewhere])
       = get_pk RedditCommunity.model id' communities.
Proof.
  split; [reflexivity|].
  apply (write_touches_one_row RedditCommunity.model 13 python_elsewhere communities
           (communities ++ [RedditCommunity.pre_save true 13 python_elsewhere])
           (Returns (RedditCommunity.pre_save true 13 python_elsewhere))).
  left. reflexivity.
Defined.

Lemma tracked_once_per_community_witness :
  tracked !! 0%nat
  = Some (TrackableItem.pre_save true 50 (TrackableItem.new 1%N 1%N 1 None None None))
  /\ 0%nat = 0%nat.
Proof.
  split; [reflexivity|].
  apply (tracked_once_per_community tracked 0 0
           (TrackableItem.pre_save true 50 (TrackableItem.new 1%N 1%N 1 None None None))
           (TrackableItem.pre_save true 50 (TrackableItem.new 1%N 1%N 1 None None None))).
  - apply run_reachable.
  - reflexivity.
  - reflexivity.
  - reflexivity.
Defined.

Lemma task_id_dedup_witness :
  (forall (i j : nat) (l1 l2 : TaskLog.t),
      task_logs !! i = Some l1 -> task_logs !! j = Some l2 ->
      TaskLog.task_id l1 = TaskLog.task_id l2 ->
      i = j)
  /\ (forall (now : datetime) (l l0 : TaskLog.t),
         l0 ∈ task_logs ->
         TaskLog.task_id l = TaskLog.task_id l0 ->
         create TaskLog.model now l task_logs = (Raises IntegrityError, task_logs)).
Proof.
  apply (task_id_dedup task_logs).
  apply run_reachable.
Defined.

Lemma posts_count_after_create_witness :
  get_posts_count (posts ++ [RedditPost.pre_save true 31 second_post])
    (RedditCommunity.pre_save true 10 python_community)
  = S (get_posts_count posts (RedditCommunity.pre_save true 10 python_community)).
Proof.
  apply (posts_count_after_create posts
           (posts ++ [RedditPost.pre_save true 31 second_post]) 31 second_post
           (Returns (RedditPost.pre_save true 31 second_post))
           (RedditCommunity.pre_save true 10 python_community)).
  reflexivity.
Defined.

(** A raw post has no [post_id] before it is parsed. *)
Example raw_post_not_valid_until_parsed :
  validate_post_data raw_post = false
  /\ validate_post_data (parse_reddit_post raw_post) = true.
Proof. split; reflexivity. Qed.

(** An interrupt during the provider call is caught by neither service. *)
Example services_interrupted :
  extract_topics string interrupted_provider text_of "best programming communities" []
  = (RaisesBase (Exn "KeyboardInterrupt" ""), [])
  /\ score_community_relevance string interrupted_provider text_of float_of_example
       "r/python" "News about the Python language" ["programming"] []
     = (RaisesBase (Exn "KeyboardInterrupt" ""), []).
Proof. split; reflexivity. Qed.

End MoreWitnesses.
